(** * QuikChat: the socket session handler (backend/src/socket/socketHandler.js)

    A shallow embedding of the Socket.IO handler module and of the part of
    backend/src/services/PaymentService.js it relies on. The PaymentService
    class itself and the state updates of the chat page (ChatInterface.jsx)
    are modelled after the handler module, each with its own conventions.

    Conventions of the model.
    - Client payloads are JSON values ([JVal]): undefined, null, booleans,
      integers, strings and objects.
    - The server state a handler can touch is one record, [World]: the
      Socket.IO adapter (which socket sits in which room), the Redis hashes,
      the pending [setTimeout] timers, the clock, and four append-only logs
      (events emitted, collaborator calls, console lines, rejections nobody
      caught). One server process is modelled.
    - Handlers are written in a state-and-exception monad [M]; a JavaScript
      [throw] is the [Throw] result, [try { } catch (error) { }] is
      [try_catch].
    - [ChatService], [UserService] and the payment methods the module calls
      are collaborators whose code is not part of the module; they are taken
      as parameters ([Env]) acting on an abstract [Store]. The object that
      ../services/PaymentService.js exports has none of the three payment
      methods the module calls; a missing method is [None].
    - Redis commands succeed; a value written to a hash is written as its
      string. A room named by a payload value is keyed by that value's string.
    - Every handler runs to completion before the next event is looked at:
      the interleaving of two [async] handlers at their [await] points is not
      modelled. *)

From stdpp Require Import gmap strings list fin_maps sorting pretty.

#[local] Set Warnings "-clear-no-such-hyp".

Open Scope Z_scope.

(** ** JSON values and the JavaScript conversions the module applies to them *)

#[local] Unset Elimination Schemes.

Inductive JVal : Type :=
| JUndef
| JNull
| JBool (b : bool)
| JNum (n : Z)
| JStr (s : string)
| JObj (fields : list (string * JVal)).

#[local] Set Elimination Schemes.

(** [`${v}`]: the string a template literal makes of a value. *)
Definition js_to_string (v : JVal) : string :=
  match v with
  | JUndef => "undefined"
  | JNull => "null"
  | JBool true => "true"
  | JBool false => "false"
  | JNum n => pretty n
  | JStr s => s
  | JObj _ => "[object Object]"
  end.

(** [if (v)]: truthiness. *)
Definition js_truthy (v : JVal) : bool :=
  match v with
  | JUndef | JNull => false
  | JBool b => b
  | JNum n => negb (Z.eqb n 0)
  | JStr s => negb (String.eqb s "")
  | JObj _ => true
  end.

Fixpoint assoc_get (k : string) (fs : list (string * JVal)) : JVal :=
  match fs with
  | [] => JUndef
  | (k', v) :: fs' => if String.eqb k k' then v else assoc_get k fs'
  end.

(** [v.k] on a value that is neither [undefined] nor [null]. *)
Definition jget (k : string) (v : JVal) : JVal :=
  match v with
  | JObj fs => assoc_get k fs
  | _ => JUndef
  end.

Definition is_nullish (v : JVal) : bool :=
  match v with
  | JUndef | JNull => true
  | _ => false
  end.

(** ** Errors and results *)

Inductive JsError : Type :=
| TypeError (msg : string)
| ReferenceError (msg : string)
| Error (msg : string).

Definition err_message (e : JsError) : string :=
  match e with
  | TypeError m | ReferenceError m | Error m => m
  end.

Inductive Res (A : Type) : Type :=
| Ok (a : A)
| Throw (e : JsError).

Arguments Ok {A} a.

Arguments Throw {A} e.

(** ** Records read from the collaborators *)

Record Participant := {
  p_userId : string;          (* participant.userId.toString() *)
  p_role : string
}.

Record PaymentDetails := {
  totalDuration : Z;          (* minutes *)
  autoExtend : bool
}.

Record Chat := {
  chat_id : JVal;                          (* chat._id *)
  chat_type : string;                      (* chat.type *)
  participants : list Participant;
  paymentDetails : option PaymentDetails
}.

Record EarnerProfile := {
  isActive : bool;
  hourlyRate : JVal;
  services : list (string * bool)          (* earnerProfile.services[type] *)
}.

Record User := {
  u_role : string;
  u_username : JVal;
  earnerProfile : option EarnerProfile
}.

(** ** Server state *)

(** A connected socket: [socket.userId], [socket.userRole], [socket.rooms]. *)
Record Sock := {
  userId : string;
  userRole : JVal;
  rooms : gset string
}.

(** Which emitter the code used. *)
Inductive Target : Type :=
| ToSocket (sid : string)                   (* socket.emit *)
| ToRoom (room : string)                    (* io.to(room).emit *)
| ToRoomExcept (room : string) (sid : string)   (* socket.to(room).emit *)
| BroadcastExcept (sid : string).           (* socket.broadcast.emit *)

#[global] Instance Target_eq_dec : EqDecision Target.
Proof. solve_decision. Defined.

(** One emitted event, with the sockets it reached and the clock value. *)
Record Emit := {
  e_target : Target;
  e_rcpt : gset string;
  e_name : string;
  e_payload : JVal;
  e_time : Z
}.

(** A call made to a collaborator. *)
Inductive Call : Type :=
| C_getChat (chatId : JVal)
| C_checkChatTimeRemaining (chatId : JVal)
| C_saveMessage (msg : JVal)
| C_updateLastMessage (chatId message : JVal)
| C_updateUserPresence (chatId : JVal) (user : string) (present : bool)
| C_markAsRead (messageId : JVal) (user : string)
| C_endChat (chatId : JVal)
| C_createPrivateChat (requestId : JVal)
| C_getUser (user : JVal)
| C_createChatPayment (req : JVal)
| C_acceptPayment (requestId : JVal)
| C_createExtensionPayment (req : JVal).

(** A pending [setTimeout] whose callback is the chat timer of [t_chat]. *)
Record Timer := {
  t_id : nat;
  t_due : Z;                  (* clock value, in ms, at which it fires *)
  t_chat : JVal
}.

Definition due_le (a b : Timer) : Prop := t_due a ≤ t_due b.

#[global] Instance due_le_dec : RelDecision due_le.
Proof. intros a b. unfold due_le. apply _. Defined.

Section Model.

(** The state of the storage behind the collaborators. *)
Context {Store : Type}.

Record World := {
  now : Z;                                     (* clock, ms *)
  sockets : gmap string Sock;                  (* connected sockets by id *)
  redis : gmap string (gmap string string);    (* hashes *)
  redis_ttl : gmap string Z;                   (* EXPIRE, seconds *)
  timers : list Timer;                         (* pending timeouts *)
  next_timer : nat;
  out : list Emit;                             (* events emitted so far *)
  calls : list Call;                           (* collaborator calls so far *)
  console : list string;
  unhandled : list JsError;                    (* rejections nobody caught *)
  store : Store
}.

Definition set_now (t : Z) (w : World) : World :=
  {| now := t; sockets := sockets w; redis := redis w; redis_ttl := redis_ttl w;
     timers := timers w; next_timer := next_timer w; out := out w;
     calls := calls w; console := console w; unhandled := unhandled w;
     store := store w |}.

Definition set_sockets (m : gmap string Sock) (w : World) : World :=
  {| now := now w; sockets := m; redis := redis w; redis_ttl := redis_ttl w;
     timers := timers w; next_timer := next_timer w; out := out w;
     calls := calls w; console := console w; unhandled := unhandled w;
     store := store w |}.

Definition set_redis (m : gmap string (gmap string string)) (w : World) : World :=
  {| now := now w; sockets := sockets w; redis := m; redis_ttl := redis_ttl w;
     timers := timers w; next_timer := next_timer w; out := out w;
     calls := calls w; console := console w; unhandled := unhandled w;
     store := store w |}.

Definition set_redis_ttl (m : gmap string Z) (w : World) : World :=
  {| now := now w; sockets := sockets w; redis := redis w; redis_ttl := m;
     timers := timers w; next_timer := next_timer w; out := out w;
     calls := calls w; console := console w; unhandled := unhandled w;
     store := store w |}.

Definition set_timers (l : list Timer) (n : nat) (w : World) : World :=
  {| now := now w; sockets := sockets w; redis := redis w; redis_ttl := redis_ttl w;
     timers := l; next_timer := n; out := out w;
     calls := calls w; console := console w; unhandled := unhandled w;
     store := store w |}.

Definition set_out (l : list Emit) (w : World) : World :=
  {| now := now w; sockets := sockets w; redis := redis w; redis_ttl := redis_ttl w;
     timers := timers w; next_timer := next_timer w; out := l;
     calls := calls w; console := console w; unhandled := unhandled w;
     store := store w |}.

Definition set_store (c : Call) (st : Store) (w : World) : World :=
  {| now := now w; sockets := sockets w; redis := redis w; redis_ttl := redis_ttl w;
     timers := timers w; next_timer := next_timer w; out := out w;
     calls := calls w ++ [c]; console := console w; unhandled := unhandled w;
     store := st |}.

Definition set_console (l : list string) (w : World) : World :=
  {| now := now w; sockets := sockets w; redis := redis w; redis_ttl := redis_ttl w;
     timers := timers w; next_timer := next_timer w; out := out w;
     calls := calls w; console := l; unhandled := unhandled w;
     store := store w |}.

Definition set_unhandled (l : list JsError) (w : World) : World :=
  {| now := now w; sockets := sockets w; redis := redis w; redis_ttl := redis_ttl w;
     timers := timers w; next_timer := next_timer w; out := out w;
     calls := calls w; console := console w; unhandled := l;
     store := store w |}.

(** ** The monad of handlers *)

Definition M (A : Type) : Type := World -> Res A * World.

Definition ret {A} (a : A) : M A := fun w => (Ok a, w).

Definition bind {A B} (m : M A) (k : A -> M B) : M B :=
  fun w =>
    match m w with
    | (Ok a, w') => k a w'
    | (Throw e, w') => (Throw e, w')
    end.

Definition throw {A} (e : JsError) : M A := fun w => (Throw e, w).

Definition try_catch (m : M unit) (h : JsError -> M unit) : M unit :=
  fun w =>
    match m w with
    | (Ok a, w') => (Ok a, w')
    | (Throw e, w') => h e w'
    end.

Notation "'let!' x ':=' m 'in' k" := (bind m (fun x => k))
  (at level 10, x name, m at level 100, k at level 200).

Notation "m '>>' k" := (bind m (fun _ => k))
  (at level 90, right associativity).

(** A call to a collaborator: it may change the store and may throw; the call
    is logged either way. *)
Definition call {A} (c : Call) (f : Store -> Res A * Store) : M A :=
  fun w => let (r, st) := f (store w) in (r, set_store c st w).

Definition console_log (line : string) : M unit :=
  fun w => (Ok tt, set_console (console w ++ [line]) w).

(** [Date.now()], [new Date()] *)
Definition date_now : M Z := fun w => (Ok (now w), w).

(** [const { a, b } = data]: destructuring [undefined] or [null] throws. *)
Definition destructure (data : JVal) : M unit :=
  if is_nullish data
  then throw (TypeError "Cannot destructure property of undefined or null")
  else ret tt.

(** An identifier that no enclosing scope declares. *)
Definition unbound_identifier {A} (x : string) : M A :=
  throw (ReferenceError (x +:+ " is not defined")).

(** ** Socket.IO: rooms and emitters *)

Definition socket_rooms (sid : string) (w : World) : gset string :=
  match sockets w !! sid with
  | Some s => rooms s
  | None => ∅
  end.

(** The sockets currently in a room. *)
Definition members (room : string) (w : World) : gset string :=
  dom (filter (fun p : string * Sock => room ∈ rooms p.2) (sockets w)).

Definition recipients (t : Target) (w : World) : gset string :=
  match t with
  | ToSocket sid => {[ sid ]}
  | ToRoom room => members room w
  | ToRoomExcept room sid => members room w ∖ {[ sid ]}
  | BroadcastExcept sid => dom (sockets w) ∖ {[ sid ]}
  end.

(** The record of an event emitted in world [w]. *)
Definition emitted (t : Target) (name : string) (payload : JVal) (w : World) : Emit :=
  {| e_target := t; e_rcpt := recipients t w; e_name := name; e_payload := payload;
     e_time := now w |}.

Definition emit (t : Target) (name : string) (payload : JVal) : M unit :=
  fun w => (Ok tt, set_out (out w ++ [ emitted t name payload w ]) w).

(** [socket.rooms] *)
Definition get_rooms (sid : string) : M (gset string) :=
  fun w => (Ok (socket_rooms sid w), w).

Definition with_rooms (f : gset string -> gset string) (s : Sock) : Sock :=
  {| userId := userId s; userRole := userRole s; rooms := f (rooms s) |}.

(** [socket.join(room)] and [socket.leave(room)]. *)
Definition socket_join (sid room : string) : M unit :=
  fun w => (Ok tt, set_sockets (alter (with_rooms (fun rs => {[ room ]} ∪ rs)) sid (sockets w)) w).

Definition socket_leave (sid room : string) : M unit :=
  fun w => (Ok tt, set_sockets (alter (with_rooms (fun rs => rs ∖ {[ room ]})) sid (sockets w)) w).

(** ** Redis hashes *)

Definition hGet (key field : string) (w : World) : option string :=
  match redis w !! key with
  | Some h => h !! field
  | None => None
  end.

Definition hSet (key field value : string) : M unit :=
  fun w =>
    let h := match redis w !! key with Some h => h | None => ∅ end in
    (Ok tt, set_redis (<[ key := <[ field := value ]> h ]> (redis w)) w).

Definition expire (key : string) (seconds : Z) : M unit :=
  fun w => (Ok tt, set_redis_ttl (<[ key := seconds ]> (redis_ttl w)) w).

(** ** Timers *)

(** Node turns a delay outside [1, 2^31 - 1] into 1 ms. *)
Definition node_delay (ms : Z) : Z :=
  if (1 <=? ms) && (ms <=? 2147483647) then ms else 1.

(** [setTimeout(cb, ms)] where [cb] is the chat timer callback of [chatId];
    the result is the timer handle. *)
Definition setTimeout (chatId : JVal) (ms : Z) : M nat :=
  fun w =>
    let id := next_timer w in
    (Ok id,
     set_timers (timers w ++ [ {| t_id := id; t_due := now w + node_delay ms;
                                  t_chat := chatId |} ]) (S id) w).

(** ** Collaborators *)

Definition Method (A : Type) : Type := Store -> Res A * Store.

(** ../services/ChatService (not part of the sources at hand). *)
Record ChatServiceT := {
  getChat : JVal -> Method (option Chat);
  checkChatTimeRemaining : JVal -> Method bool;
  saveMessage : JVal -> Method JVal;
  updateLastMessage : JVal -> JVal -> Method unit;
  updateUserPresence : JVal -> string -> bool -> Method unit;
  markAsRead : JVal -> string -> Method unit;
  endChat : JVal -> Method unit;
  createPrivateChat : JVal -> Method (option Chat)
}.

(** The three methods the handler module calls on the object exported by
    ../services/PaymentService; a method the object does not have is [None]. *)
Record PaymentServiceT := {
  createChatPayment : option (JVal -> Method JVal);
  acceptPayment : option (JVal -> Method unit);
  createExtensionPayment : option (JVal -> Method JVal)
}.

Record UserServiceT := {
  getUser : JVal -> Method (option User)
}.

(** What the module closes over. [UserService] is used but neither required
    nor declared in the module, so the name resolves through the global
    object: [None] when nothing is bound there. *)
Record Env := {
  jwt_verify : JVal -> Res (string * JVal);    (* decoded.userId, decoded.role *)
  ChatService : ChatServiceT;
  PaymentService : PaymentServiceT;
  UserService : option UserServiceT;
  toISOString : Z -> string;                   (* new Date().toISOString() *)
  num_div : JVal -> JVal -> JVal;              (* a / b on doubles *)
  num_mul : JVal -> JVal -> JVal               (* a * b on doubles *)
}.

Variable env : Env.

Definition resolve_UserService : M UserServiceT :=
  match UserService env with
  | Some us => ret us
  | None => unbound_identifier "UserService"
  end.

(** [PaymentService.m(...)] where [m] may be missing from the object. *)
Definition method {A} (name : string) (m : option (JVal -> Method A))
    (c : Call) (arg : JVal) : M A :=
  match m with
  | Some f => call c (f arg)
  | None => throw (TypeError ("PaymentService." +:+ name +:+ " is not a function"))
  end.

(** [x.f] on a possibly null object. *)
Definition deref {A} (what : string) (o : option A) : M A :=
  match o with
  | Some a => ret a
  | None => throw (TypeError ("Cannot read properties of " +:+ what))
  end.

Definition prop (k : string) (v : JVal) : M JVal :=
  if is_nullish v
  then throw (TypeError ("Cannot read properties of undefined (reading '" +:+ k +:+ "')"))
  else ret (jget k v).

Definition chat_room (chatId : JVal) : string := "chat:" +:+ js_to_string chatId.

Definition user_room (user : string) : string := "user:" +:+ user.

(** Room names that come straight from a payload are keyed by their string. *)
Definition call_room (callId : JVal) : string := js_to_string callId.

Definition error_payload (msg : string) : JVal := JObj [("message", JStr msg)].

Fixpoint for_each {A} (f : A -> M unit) (l : list A) : M unit :=
  match l with
  | [] => ret tt
  | x :: l' => f x >> for_each f l'
  end.

(** ** The module: io.use, io.on('connection'), the handlers, startChatTimer *)

Definition CS : ChatServiceT := ChatService env.

Definition PS : PaymentServiceT := PaymentService env.

(** io.use(async (socket, next) => ...): [Some (userId, role)] when [next()]
    is called without an error, [None] when the handshake is refused. *)
Definition auth_middleware (sid : string) (token : JVal) : M (option (string * JVal)) :=
  if negb (js_truthy token) then ret None
  else
    match jwt_verify env token with
    | Throw _ => ret None
    | Ok (uid, role) =>
        hSet (user_room uid) "socketId" sid >>
        hSet (user_room uid) "status" "online" >>
        expire (user_room uid) 86400 >>
        ret (Some (uid, role))
    end.

(** The body of io.on('connection', ...) before the handlers are attached. *)
Definition on_connection (sid uid : string) : M unit :=
  console_log ("User connected: " +:+ uid) >>
  socket_join sid (user_room uid) >>
  emit (ToSocket sid) "connected" (JObj [("userId", JStr uid)]) >>
  emit (BroadcastExcept sid) "user-status"
       (JObj [("userId", JStr uid); ("status", JStr "online")]).

(** socket.on('join-chat', async (chatId) => ...) *)
Definition on_join_chat (sid uid : string) (chatId : JVal) : M unit :=
  socket_join sid (chat_room chatId) >>
  call (C_updateUserPresence chatId uid true) (updateUserPresence CS chatId uid true) >>
  emit (ToRoomExcept (chat_room chatId) sid) "user-joined" (JObj [("userId", JStr uid)]).

(** The object handed to saveMessage. *)
Definition message_input (uid : string) (data : JVal) : JVal :=
  JObj [("chatId", jget "chatId" data); ("senderId", JStr uid);
        ("content", jget "content" data); ("type", jget "type" data);
        ("media", jget "media" data)].

(** The end of the send-message handler: update the last message, then
    notify the participants other than the sender. *)
Definition send_message_finish (uid : string) (chatId message : JVal) (chat : Chat)
    : M unit :=
  call (C_updateLastMessage chatId message) (updateLastMessage CS chatId message) >>
  for_each
    (fun participant =>
       if String.eqb (p_userId participant) uid then ret tt
       else
         let! content := prop "content" message in
         emit (ToRoom (user_room (p_userId participant))) "message-notification"
              (JObj [("chatId", chatId); ("message", content); ("sender", JStr uid)]))
    (participants chat).

(** The part of the send-message handler after the time check: save the
    message, emit it to the chat room, and finish as above. *)
Definition send_message_save_and_emit (uid : string) (data : JVal) (chat : Chat) : M unit :=
  let chatId := jget "chatId" data in
  let msg := message_input uid data in
  let! message := call (C_saveMessage msg) (saveMessage CS msg) in
  emit (ToRoom (chat_room chatId)) "new-message" message >>
  send_message_finish uid chatId message chat.

(** socket.on('send-message', async (data) => ...) *)
Definition on_send_message (sid uid : string) (data : JVal) : M unit :=
  try_catch
    (destructure data >>
     let chatId := jget "chatId" data in
     let! found := call (C_getChat chatId) (getChat CS chatId) in
     let! chat := deref "null (reading 'type')" found in
     if String.eqb (chat_type chat) "private_paid" then
       let! hasTime := call (C_checkChatTimeRemaining chatId)
                            (checkChatTimeRemaining CS chatId) in
       if negb hasTime
       then emit (ToSocket sid) "chat-error" (error_payload "Chat time expired")
       else send_message_save_and_emit uid data chat
     else send_message_save_and_emit uid data chat)
    (fun error => emit (ToSocket sid) "error" (error_payload (err_message error))).

(** socket.on('typing', (data) => ...) *)
Definition on_typing (sid uid : string) (data : JVal) : M unit :=
  destructure data >>
  emit (ToRoomExcept (chat_room (jget "chatId" data)) sid) "typing-indicator"
       (JObj [("userId", JStr uid); ("isTyping", jget "isTyping" data)]).

(** socket.on('read-receipt', async (data) => ...) *)
Definition on_read_receipt (sid uid : string) (data : JVal) : M unit :=
  destructure data >>
  let messageId := jget "messageId" data in
  call (C_markAsRead messageId uid) (markAsRead CS messageId uid) >>
  emit (ToRoomExcept (chat_room (jget "chatId" data)) sid) "message-read"
       (JObj [("messageId", messageId); ("userId", JStr uid)]).

(** socket.on('request-private-chat', async (data) => ...) *)
Definition on_request_private_chat (sid uid : string) (data : JVal) : M unit :=
  try_catch
    (destructure data >>
     let earnerId := jget "earnerId" data in
     let duration := jget "duration" data in
     let chatType := jget "chatType" data in
     let! us := resolve_UserService in
     let! found := call (C_getUser earnerId) (getUser us earnerId) in
     let! earner := deref "null (reading 'earnerProfile')" found in
     let! profile := deref "undefined (reading 'isActive')" (earnerProfile earner) in
     if negb (isActive profile)
     then emit (ToSocket sid) "error" (error_payload "Earner is not available")
     else
       let rate := num_div env (hourlyRate profile) (JNum 60) in
       let amount := num_mul env rate duration in
       let req := JObj [("userId", JStr uid); ("earnerId", earnerId); ("amount", amount);
                        ("duration", duration); ("chatType", chatType)] in
       let! paymentSession :=
         method "createChatPayment" (createChatPayment PS) (C_createChatPayment req) req in
       let! session_id := prop "_id" paymentSession in
       emit (ToSocket sid) "payment-request"
            (JObj [("sessionId", session_id); ("amount", amount); ("duration", duration);
                   ("earnerName", u_username earner)]) >>
       emit (ToRoomExcept (user_room (js_to_string earnerId)) sid) "chat-request"
            (JObj [("requestId", session_id); ("userId", JStr uid);
                   ("duration", duration); ("amount", amount)]))
    (fun error => emit (ToSocket sid) "error" (error_payload (err_message error))).

(** The end of the timer callback, "Auto-extend if enabled": the chat is
    loaded and its autoExtend flag read; the branch is empty. *)
Definition auto_extend (chatId : JVal) : M unit :=
  let! found := call (C_getChat chatId) (getChat CS chatId) in
  let! chat := deref "null (reading 'paymentDetails')" found in
  let! details := deref "undefined (reading 'autoExtend')" (paymentDetails chat) in
  if autoExtend details then ret tt else ret tt.

(** The callback startChatTimer hands to setTimeout. *)
Definition chat_timer_callback (chatId : JVal) : M unit :=
  try_catch
    (call (C_endChat chatId) (endChat CS chatId) >>
     emit (ToRoom (chat_room chatId)) "chat-time-ended" (JObj [("chatId", chatId)]) >>
     auto_extend chatId)
    (fun error => console_log ("Chat timer error: " +:+ err_message error)).

(** function startChatTimer(chatId, duration): the timeout is set, then
    [chatTimers.set(chatId, timer)] is evaluated. [chatTimers] would be a
    variable of this very module, and the module declares none (it binds jwt,
    ChatService, PaymentService, io, redisClient and startChatTimer):
    evaluating the name throws. *)
Definition startChatTimer (chatId : JVal) (duration : Z) : M unit :=
  let! timer := setTimeout chatId (duration * 60 * 1000) in
  unbound_identifier "chatTimers".

(** socket.on('accept-chat-request', async (data) => ...) *)
Definition on_accept_chat_request (sid uid : string) (data : JVal) : M unit :=
  try_catch
    (destructure data >>
     let requestId := jget "requestId" data in
     method "acceptPayment" (acceptPayment PS) (C_acceptPayment requestId) requestId >>
     let! created := call (C_createPrivateChat requestId) (createPrivateChat CS requestId) in
     let! chat := deref "null (reading '_id')" created in
     let! details := deref "undefined (reading 'totalDuration')" (paymentDetails chat) in
     emit (ToRoom (chat_room (chat_id chat))) "chat-started"
          (JObj [("chatId", chat_id chat); ("duration", JNum (totalDuration details))]) >>
     startChatTimer (chat_id chat) (totalDuration details))
    (fun error => emit (ToSocket sid) "error" (error_payload (err_message error))).

(** [chat.participants.find(p => p.role === 'earner')] *)
Definition find_earner (ps : list Participant) : option Participant :=
  List.find (fun p => String.eqb (p_role p) "earner") ps.

(** socket.on('extend-chat', async (data) => ...) *)
Definition on_extend_chat (sid uid : string) (data : JVal) : M unit :=
  try_catch
    (destructure data >>
     let chatId := jget "chatId" data in
     let additionalMinutes := jget "additionalMinutes" data in
     let! found := call (C_getChat chatId) (getChat CS chatId) in
     let! us := resolve_UserService in
     let! chat := deref "null (reading 'participants')" found in
     let! p := deref "undefined (reading 'userId')" (find_earner (participants chat)) in
     let! user := call (C_getUser (JStr (p_userId p))) (getUser us (JStr (p_userId p))) in
     let! earner := deref "null (reading 'earnerProfile')" user in
     let! profile := deref "undefined (reading 'hourlyRate')" (earnerProfile earner) in
     let rate := num_div env (hourlyRate profile) (JNum 60) in
     let amount := num_mul env rate additionalMinutes in
     let req := JObj [("chatId", chatId); ("userId", JStr uid); ("amount", amount);
                      ("minutes", additionalMinutes)] in
     let! payment :=
       method "createExtensionPayment" (createExtensionPayment PS)
              (C_createExtensionPayment req) req in
     let! payment_id := prop "_id" payment in
     emit (ToSocket sid) "extension-payment-request"
          (JObj [("paymentId", payment_id); ("amount", amount);
                 ("minutes", additionalMinutes)]))
    (fun error => emit (ToSocket sid) "error" (error_payload (err_message error))).

(** [user.earnerProfile.services[type]], [undefined] counting as false. *)
Definition service_enabled (profile : EarnerProfile) (type : JVal) : bool :=
  match List.find (fun kv => String.eqb (fst kv) (js_to_string type)) (services profile) with
  | Some (_, b) => b
  | None => false
  end.

(** socket.on('call-user', async (data) => ...) *)
Definition on_call_user (sid uid : string) (data : JVal) : M unit :=
  destructure data >>
  let callee := jget "userId" data in
  let type := jget "type" data in
  let isVideo := jget "isVideo" data in
  let! us := resolve_UserService in
  let! found := call (C_getUser callee) (getUser us callee) in
  let! user := deref "null (reading 'role')" found in
  let! refused :=
    (if String.eqb (u_role user) "female_earner"
     then let! profile := deref "undefined (reading 'services')" (earnerProfile user) in
          ret (negb (service_enabled profile type))
     else ret false) in
  if refused
  then emit (ToSocket sid) "error" (error_payload "This service is not available")
  else
    let! t := date_now in
    let callId := JStr ("call_" +:+ pretty t +:+ "_" +:+ uid +:+ "_" +:+ js_to_string callee) in
    emit (ToRoomExcept (user_room (js_to_string callee)) sid) "incoming-call"
         (JObj [("callId", callId); ("callerId", JStr uid); ("type", type);
                ("isVideo", isVideo)]) >>
    emit (ToSocket sid) "call-initiated" (JObj [("callId", callId)]).

(** socket.on('accept-call' | 'reject-call' | 'join-call' | 'call-signal' |
    'end-call', ...) *)
Definition on_accept_call (sid uid : string) (data : JVal) : M unit :=
  destructure data >>
  emit (ToRoom (call_room (jget "callId" data))) "call-accepted" JUndef.

Definition on_reject_call (sid uid : string) (data : JVal) : M unit :=
  destructure data >>
  emit (ToRoom (call_room (jget "callId" data))) "call-rejected" JUndef.

Definition on_join_call (sid uid : string) (callId : JVal) : M unit :=
  socket_join sid (call_room callId).

Definition on_call_signal (sid uid : string) (data : JVal) : M unit :=
  destructure data >>
  emit (ToRoomExcept (call_room (jget "callId" data)) sid) "call-signal"
       (JObj [("signal", jget "signal" data); ("userId", JStr uid)]).

Definition on_end_call (sid uid : string) (callId : JVal) : M unit :=
  emit (ToRoom (call_room callId)) "call-ended" JUndef.

(** socket.on('update-presence', async (data) => ...) *)
Definition on_update_presence (sid uid : string) (data : JVal) : M unit :=
  destructure data >>
  let status := jget "status" data in
  let customStatus := jget "customStatus" data in
  hSet (user_room uid) "status" (js_to_string status) >>
  (if js_truthy customStatus
   then hSet (user_room uid) "customStatus" (js_to_string customStatus)
   else ret tt) >>
  emit (BroadcastExcept sid) "presence-update"
       (JObj [("userId", JStr uid); ("status", status); ("customStatus", customStatus)]).

(** The body of the loop of the disconnect handler:
    [room => { if (room !== socket.id) socket.leave(room) }]. *)
Definition leave_unless_own (sid room : string) : M unit :=
  if String.eqb room sid then ret tt else socket_leave sid room.

(** socket.on('disconnect', async () => ...) *)
Definition on_disconnect (sid uid : string) : M unit :=
  console_log ("User disconnected: " +:+ uid) >>
  hSet (user_room uid) "status" "offline" >>
  (let! t := date_now in hSet (user_room uid) "lastSeen" (toISOString env t)) >>
  emit (BroadcastExcept sid) "user-status"
       (JObj [("userId", JStr uid); ("status", JStr "offline")]) >>
  let! joined := get_rooms sid in
  for_each (leave_unless_own sid) (elements joined).

(** The events a client can trigger, in the order the module registers them. *)
Definition client_handlers : list (string * (string -> string -> JVal -> M unit)) :=
  [ ("join-chat", on_join_chat);
    ("send-message", on_send_message);
    ("typing", on_typing);
    ("read-receipt", on_read_receipt);
    ("request-private-chat", on_request_private_chat);
    ("accept-chat-request", on_accept_chat_request);
    ("extend-chat", on_extend_chat);
    ("call-user", on_call_user);
    ("accept-call", on_accept_call);
    ("reject-call", on_reject_call);
    ("join-call", on_join_call);
    ("call-signal", on_call_signal);
    ("end-call", on_end_call);
    ("update-presence", on_update_presence) ].

Fixpoint handler_of (name : string)
    (table : list (string * (string -> string -> JVal -> M unit)))
    : option (string -> string -> JVal -> M unit) :=
  match table with
  | [] => None
  | (n, h) :: table' => if String.eqb name n then Some h else handler_of name table'
  end.

(** An inbound event on a socket: the listener registered under that name
    runs; an event without a listener is dropped. *)
Definition dispatch (sid uid name : string) (data : JVal) : M unit :=
  match handler_of name client_handlers with
  | Some h => h sid uid data
  | None => ret tt
  end.

(** ** The server as a transition system *)

(** What happens to a handler's promise: a rejection nobody catches is only
    recorded. *)
Definition run_handler (m : M unit) (w : World) : World :=
  match m w with
  | (Ok _, w') => w'
  | (Throw e, w') => set_unhandled (unhandled w' ++ [e]) w'
  end.

(** A handshake: the middleware runs; if it lets the socket through, the
    socket enters the namespace in the room named by its own id and the
    connection handler runs. *)
Definition connect (sid : string) (token : JVal) (w : World) : World :=
  match sockets w !! sid with
  | Some _ => w
  | None =>
      match auth_middleware sid token w with
      | (Ok (Some (uid, role)), w1) =>
          run_handler (on_connection sid uid)
            (set_sockets (<[ sid := {| userId := uid; userRole := role;
                                       rooms := {[ sid ]} |} ]> (sockets w1)) w1)
      | (_, w1) => w1
      end
  end.

Definition inbound (sid name : string) (data : JVal) (w : World) : World :=
  match sockets w !! sid with
  | Some s => run_handler (dispatch sid (userId s) name data) w
  | None => w
  end.

(** The transport closes: Socket.IO takes the socket out of every room and out
    of the namespace, then emits 'disconnect'. *)
Definition close (sid : string) (w : World) : World :=
  match sockets w !! sid with
  | Some s => run_handler (on_disconnect sid (userId s))
                          (set_sockets (delete sid (sockets w)) w)
  | None => w
  end.

(** The timers due by [t], earliest first. *)
Definition due_timers (t : Z) (w : World) : list Timer :=
  merge_sort due_le (filter (fun tm => t_due tm ≤ t) (timers w)).

(** One timer fires, at its due time: it leaves the pending list and its
    callback runs. *)
Definition fire (w : World) (tm : Timer) : World :=
  let w1 := set_timers (filter (fun x => t_id x ≠ t_id tm) (timers w)) (next_timer w) w in
  run_handler (chat_timer_callback (t_chat tm)) (set_now (Z.max (now w1) (t_due tm)) w1).

(** The clock moves to [t]: every timer due by then fires on the way. The
    timer callback sets no timer, so the timers to fire are known up front. *)
Definition advance (t : Z) (w : World) : World :=
  let w' := foldl fire w (due_timers t w) in
  set_now (Z.max t (now w')) w'.

Inductive Action : Type :=
| Connect (sid : string) (token : JVal)
| Inbound (sid name : string) (data : JVal)
| Close (sid : string)
| Advance (t : Z).

Definition step (w : World) (a : Action) : World :=
  match a with
  | Connect sid token => connect sid token w
  | Inbound sid name data => inbound sid name data w
  | Close sid => close sid w
  | Advance t => advance t w
  end.

Definition run (w : World) (l : list Action) : World := foldl step w l.

Definition is_advance (a : Action) : bool :=
  match a with Advance _ => true | _ => false end.

(** ** Predicates used in the statements *)

(** [frames R m]: the computation [m] takes every world to one related to it
    by [R], whether it returns or throws. *)
Definition frames (R : relation World) {A} (m : M A) : Prop :=
  ∀ w, R w (m w).2.

(** The relations used as frames. *)

(** No timer is set, fired or dropped. *)
Definition same_timers (w w' : World) : Prop :=
  timers w' = timers w ∧ next_timer w' = next_timer w.

(** Timers are only added, at the end of the pending list. *)
Definition more_timers (w w' : World) : Prop :=
  timers w `prefix_of` timers w'.

(** The clock and the sockets stay as they are. *)
Definition same_clock (w w' : World) : Prop := now w' = now w.

Definition same_sockets (w w' : World) : Prop := sockets w' = sockets w.

(** Socket [sid] stays in at least the rooms it was in. *)
Definition more_rooms (sid : string) (w w' : World) : Prop :=
  ∀ room, room ∈ socket_rooms sid w -> room ∈ socket_rooms sid w'.

(** Events are only appended, and each new one satisfies [Q]. *)
Definition emits (Q : Emit -> Prop) (w w' : World) : Prop :=
  ∃ l, out w' = out w ++ l ∧ Forall Q l.

(** Calls are only appended, and each new one satisfies [Q]. *)
Definition calling (Q : Call -> Prop) (w w' : World) : Prop :=
  ∃ l, calls w' = calls w ++ l ∧ Forall Q l.

(** The fields a room operation leaves alone. *)
Definition same_but_sockets (w w' : World) : Prop :=
  now w' = now w ∧ redis w' = redis w ∧ redis_ttl w' = redis_ttl w ∧
  timers w' = timers w ∧ next_timer w' = next_timer w ∧ out w' = out w ∧
  calls w' = calls w ∧ console w' = console w ∧ unhandled w' = unhandled w ∧
  store w' = store w.

Definition any_call (c : Call) : Prop := True.

Definition any_emit (e : Emit) : Prop := True.

(** An error event, if it is one, goes to socket [sid]. *)
Definition error_to (sid : string) (e : Emit) : Prop :=
  e_name e = "error" ∨ e_name e = "chat-error" -> e_target e = ToSocket sid.

(** The call is turned down: the callee is a 'female_earner' whose profile
    does not enable the requested service. *)
Definition service_disabled (user : User) (type : JVal) : bool :=
  String.eqb (u_role user) "female_earner" &&
  match earnerProfile user with
  | Some profile => negb (service_enabled profile type)
  | None => false
  end.

Definition call_id (t : Z) (uid : string) (callee : JVal) : JVal :=
  JStr ("call_" +:+ pretty t +:+ "_" +:+ uid +:+ "_" +:+ js_to_string callee).

(** The time check the handler makes for this chat, if any. *)
Definition time_check (chat : Chat) (chatId : JVal) : list Call :=
  if String.eqb (chat_type chat) "private_paid"
  then [ C_checkChatTimeRemaining chatId ]
  else [].

(** The timer startChatTimer sets in world [w]. *)
Definition chat_timer (chatId : JVal) (duration : Z) (w : World) : Timer :=
  {| t_id := next_timer w; t_due := now w + node_delay (duration * 60 * 1000);
     t_chat := chatId |}.

(** The expiry events of a room: 'chat-time-ended' emitted to it, and the
    endChat calls made for it. *)
Definition time_ended_in (room : string) (e : Emit) : Prop :=
  e_name e = "chat-time-ended" ∧ e_target e = ToRoom room.

Definition endChat_of (room : string) (c : Call) : Prop :=
  match c with
  | C_endChat chatId => chat_room chatId = room
  | _ => False
  end.

#[global] Instance time_ended_in_dec room e : Decision (time_ended_in room e).
Proof. unfold time_ended_in. apply _. Defined.

#[global] Instance endChat_of_dec room c : Decision (endChat_of room c).
Proof. destruct c; simpl; apply _. Defined.



(** Nothing happens for the room. *)
Definition quiet (room : string) (w w' : World) : Prop :=
  emits (fun e => ¬ time_ended_in room e) w w' ∧
  calling (fun c => ¬ endChat_of room c) w w'.

(** ** Predicates about the module as a whole *)

(** The names under which the module emits: every string literal passed to
    an [emit] of socketHandler.js. *)
Definition server_events : list string :=
  [ "connected"; "user-status"; "user-joined"; "chat-error"; "new-message";
    "message-notification"; "error"; "typing-indicator"; "message-read";
    "payment-request"; "chat-request"; "chat-started"; "extension-payment-request";
    "incoming-call"; "call-initiated"; "call-accepted"; "call-rejected"; "call-signal";
    "call-ended"; "presence-update"; "chat-time-ended" ].

Definition known_event (e : Emit) : Prop := e_name e ∈ server_events.

(** The events a handler sends with [socket.to(...)] or [socket.broadcast]. *)
Definition relayed_events : list string :=
  [ "user-joined"; "typing-indicator"; "message-read"; "chat-request"; "incoming-call";
    "call-signal"; "presence-update" ].

(** A relayed event does not come back to socket [sid]. *)
Definition not_echoed (sid : string) (e : Emit) : Prop :=
  e_name e ∈ relayed_events -> sid ∉ e_rcpt e.

(** Only the log of emitted events may differ. *)
Definition same_but_out (w w' : World) : Prop :=
  now w' = now w ∧ sockets w' = sockets w ∧ redis w' = redis w ∧
  redis_ttl w' = redis_ttl w ∧ timers w' = timers w ∧ next_timer w' = next_timer w ∧
  calls w' = calls w ∧ console w' = console w ∧ unhandled w' = unhandled w ∧
  store w' = store w.

(** Every socket of [w'] is a socket of [w], of the same user, in at least
    the rooms it was in. *)
Definition sockets_kept (w w' : World) : Prop :=
  ∀ sid s', sockets w' !! sid = Some s' ->
    ∃ s, sockets w !! sid = Some s ∧ userId s' = userId s ∧ rooms s ⊆ rooms s'.

(** Every connected socket is in the room named by its id and in the room of
    its user. *)
Definition in_own_rooms (w : World) : Prop :=
  ∀ sid s, sockets w !! sid = Some s -> sid ∈ rooms s ∧ user_room (userId s) ∈ rooms s.

Definition is_time_check (c : Call) : Prop :=
  match c with
  | C_checkChatTimeRemaining _ => True
  | _ => False
  end.

(** The notification the send-message handler emits for a participant. *)
Definition notification (uid : string) (chatId message : JVal) (w : World)
    (p : Participant) : Emit :=
  emitted (ToRoom (user_room (p_userId p))) "message-notification"
          (JObj [("chatId", chatId); ("message", jget "content" message);
                 ("sender", JStr uid)]) w.

(** The participants the handler notifies: all but the sender. *)
Definition others (uid : string) (ps : list Participant) : list Participant :=
  filter (fun p => p_userId p ≠ uid) ps.

(** The request handed to createChatPayment, and what it costs. *)
Definition chat_amount (profile : EarnerProfile) (duration : JVal) : JVal :=
  num_mul env (num_div env (hourlyRate profile) (JNum 60)) duration.

Definition chat_payment_request (uid : string) (data : JVal) (profile : EarnerProfile)
    : JVal :=
  JObj [("userId", JStr uid); ("earnerId", jget "earnerId" data);
        ("amount", chat_amount profile (jget "duration" data));
        ("duration", jget "duration" data); ("chatType", jget "chatType" data)].

End Model.

Arguments World : clear implicits.
Arguments Env : clear implicits.
Arguments ChatServiceT : clear implicits.
Arguments PaymentServiceT : clear implicits.
Arguments UserServiceT : clear implicits.
Arguments Method : clear implicits.

(** * Concrete collaborators and worlds *)

Module Fixture.

(** Storage kept in memory: the messages saved so far. *)
Definition Store : Type := list JVal.

Definition alice : Participant := {| p_userId := "alice"; p_role := "user" |}.

Definition bob : Participant := {| p_userId := "bob"; p_role := "earner" |}.

Definition paid_chat : Chat :=
  {| chat_id := JStr "p1"; chat_type := "private_paid";
     participants := [alice; bob];
     paymentDetails := Some {| totalDuration := 2; autoExtend := false |} |}.

Definition free_chat : Chat :=
  {| chat_id := JStr "f1"; chat_type := "private";
     participants := [alice; bob]; paymentDetails := None |}.

Definition chat_of (chatId : JVal) : option Chat :=
  match chatId with
  | JStr "p1" => Some paid_chat
  | JStr "f1" => Some free_chat
  | _ => None
  end.

Definition plain_user (name : string) : User :=
  {| u_role := "user"; u_username := JStr name; earnerProfile := None |}.

Definition user_of (u : JVal) : option User :=
  match u with
  | JStr "bob" =>
      Some {| u_role := "female_earner"; u_username := JStr "Bob";
              earnerProfile := Some {| isActive := true; hourlyRate := JNum 600;
                                       services := [("voice", true); ("video", false)] |} |}
  | JStr "alice" => Some (plain_user "Alice")
  | JStr "carol" => Some (plain_user "Carol")
  | JStr "dave" => Some (plain_user "Dave")
  | _ => None
  end.

Definition ok {A} (a : A) : Method Store A := fun st => (Ok a, st).

Definition failing {A} (msg : string) : Method Store A := fun st => (Throw (Error msg), st).

(** The object ../services/PaymentService exports: its class defines
    createRazorpayOrder, verifyRazorpayPayment, createPayPalOrder,
    capturePayPalOrder, createWalletTopUp, processWithdrawal, initiatePayout,
    refundPayment and getPaymentAnalytics, and none of the three methods the
    handler module calls. *)
Definition PaymentService_src : PaymentServiceT Store :=
  {| createChatPayment := None; acceptPayment := None; createExtensionPayment := None |}.

(** A payment service that does have the three methods. *)
Definition PaymentService_full : PaymentServiceT Store :=
  {| createChatPayment := Some (fun _ => ok (JObj [("_id", JStr "pay1")]));
     acceptPayment := Some (fun _ => ok tt);
     createExtensionPayment := Some (fun _ => ok (JObj [("_id", JStr "ext1")])) |}.

(** What varies between scenarios. *)
Record Knobs := {
  has_time : bool;              (* what checkChatTimeRemaining answers *)
  storage_up : bool;            (* endChat and markAsRead succeed *)
  user_service : bool;          (* the name UserService is bound *)
  payments : PaymentServiceT Store
}.

Definition chat_service (k : Knobs) : ChatServiceT Store :=
  {| getChat := fun c => ok (chat_of c);
     checkChatTimeRemaining := fun _ => ok (has_time k);
     saveMessage := fun m st => (Ok m, (st ++ [m])%list);
     updateLastMessage := fun _ _ => ok tt;
     updateUserPresence := fun _ _ _ => ok tt;
     markAsRead := fun _ _ => if storage_up k then ok tt else failing "storage unreachable";
     endChat := fun _ => if storage_up k then ok tt else failing "storage unreachable";
     createPrivateChat := fun _ => ok (Some paid_chat) |}.

Definition mk_env (k : Knobs) : Env Store :=
  {| jwt_verify := fun token =>
       match token with
       | JStr u => Ok (u, JStr "user")
       | _ => Throw (Error "jwt malformed")
       end;
     ChatService := chat_service k;
     PaymentService := payments k;
     UserService := if user_service k then Some {| getUser := fun u => ok (user_of u) |} else None;
     toISOString := fun t => pretty t;
     num_div := fun a b => match a, b with JNum x, JNum y => JNum (x / y) | _, _ => JUndef end;
     num_mul := fun a b => match a, b with JNum x, JNum y => JNum (x * y) | _, _ => JUndef end |}.

(** The module with the bindings the sources give it: UserService unbound,
    the payment service as exported; storage works. *)
Definition as_written : Knobs :=
  {| has_time := true; storage_up := true; user_service := false;
     payments := PaymentService_src |}.

(** The same with the time of paid chats used up, and with storage failing. *)
Definition no_time : Knobs :=
  {| has_time := false; storage_up := true; user_service := false;
     payments := PaymentService_src |}.

Definition storage_down : Knobs :=
  {| has_time := true; storage_up := false; user_service := false;
     payments := PaymentService_src |}.

(** The module with every collaborator it names: UserService bound, a payment
    service that has the three methods. *)
Definition completed : Knobs :=
  {| has_time := true; storage_up := true; user_service := true;
     payments := PaymentService_full |}.

Definition w0 : World Store :=
  {| now := 1000; sockets := ∅; redis := ∅; redis_ttl := ∅; timers := [];
     next_timer := 0; out := []; calls := []; console := []; unhandled := [];
     store := ([] : Store) |}.

(** Alice and Bob are connected and have joined the paid chat p1 and the
    free chat f1; Carol is connected and has joined nothing. *)
Definition gathered (k : Knobs) : World Store :=
  run (mk_env k) w0
    [ Connect "s1" (JStr "alice"); Connect "s2" (JStr "bob"); Connect "s3" (JStr "carol");
      Inbound "s1" "join-chat" (JStr "p1"); Inbound "s2" "join-chat" (JStr "p1");
      Inbound "s1" "join-chat" (JStr "f1"); Inbound "s2" "join-chat" (JStr "f1") ].

Definition message_to (chat : string) : JVal :=
  JObj [("chatId", JStr chat); ("content", JStr "hello"); ("type", JStr "text")].

Definition accept_request : JVal := JObj [("requestId", JStr "r1")].

Definition extend_request : JVal :=
  JObj [("chatId", JStr "p1"); ("additionalMinutes", JNum 10)].

Definition call_data : JVal := JObj [("callId", JStr "c1")].

Definition call_dave : JVal := JObj [("userId", JStr "dave"); ("type", JStr "voice")].

Definition call_bob_video : JVal := JObj [("userId", JStr "bob"); ("type", JStr "video")].

Definition receipt : JVal := JObj [("messageId", JStr "m1"); ("chatId", JStr "f1")].

(** The events emitted between two worlds. *)
Definition new_events (w w' : World Store) : list Emit := drop (length (out w)) (out w').

Definition names (l : list Emit) : list string := map e_name l.

Definition deadlines (w : World Store) : list Z := map t_due (timers w).

(** A decidable fact about a concrete scenario, settled by evaluation. *)
Ltac by_compute := apply (bool_decide_unpack _); vm_compute; reflexivity.






(** Alice connects a second time; her first socket then disconnects. *)
Definition reconnected : World Store :=
  run (mk_env as_written) w0 [ Connect "s1" (JStr "alice"); Connect "s9" (JStr "alice") ].

Definition first_socket_closed : World Store := close (mk_env as_written) "s1" reconnected.

(** Alice and Bob are in the call room c1 and the call is accepted; then
    Alice's connection drops. *)
Definition in_call : World Store :=
  run (mk_env as_written) (gathered as_written)
    [ Inbound "s1" "join-call" (JStr "c1"); Inbound "s2" "join-call" (JStr "c1");
      Inbound "s2" "accept-call" call_data ].

Definition hung_up : World Store := close (mk_env as_written) "s1" in_call.

(** Alice calls Dave, who has no connection and no presence record. *)
Definition called (k : Knobs) : World Store :=
  inbound (mk_env k) "s1" "call-user" call_dave (gathered k).

(** Carol, who has joined nothing, sends a message to f1. *)
Definition sent_by_carol : World Store :=
  inbound (mk_env as_written) "s3" "send-message" (message_to "f1") (gathered as_written).

(** Bob accepts a chat request. *)
Definition accepted (k : Knobs) : World Store :=
  inbound (mk_env k) "s2" "accept-chat-request" accept_request (gathered k).

End Fixture.

(** * The PaymentService class (backend/src/services/PaymentService.js)

    Conventions of the model.
    - Amounts are integers. The documents of ../models/User, Withdrawal and
      PaymentIntent are kept in a [Ledger]; findById, create and save are the
      Mongoose operations and succeed; every User document has a wallet. A
      document's _id is its position in its collection.
    - The Razorpay and PayPal clients, crypto.createHmac and process.env are
      taken as parameters ([Gateways]); each request sent to a gateway is
      logged.
    - A method is a computation in the state-and-exception monad [Pay]; each
      runs to completion before the next request is looked at. *)

Record Wallet := {
  balance : Z;
  pendingWithdrawal : Z;
  totalWithdrawn : Z
}.

Record Withdrawal := {
  wd_userId : string;
  wd_amount : Z;
  wd_method : JVal;
  wd_details : JVal;
  wd_status : string;
  wd_processedAt : option Z          (* null, or the time of completion *)
}.

Record PaymentIntent := {
  pi_userId : string;
  pi_amount : Z;
  pi_currency : JVal;
  pi_method : JVal;
  pi_status : string;
  pi_paymentData : JVal;
  pi_type : string
}.

(** A pending timeout of initiatePayout: when it is due, and the withdrawal
    document its callback closes over, with the document's _id. *)
Record Payout := {
  po_due : Z;
  po_id : nat;
  po_doc : Withdrawal
}.

Definition payout_le (a b : Payout) : Prop := po_due a ≤ po_due b.

#[global] Instance payout_le_dec : RelDecision payout_le.
Proof. intros a b. unfold payout_le. apply _. Defined.

(** What createRazorpayOrder and createPayPalOrder read from [orderData]. *)
Record OrderData := {
  od_amount : Z;
  od_currency : JVal;
  od_receipt : JVal;
  od_userId : JVal;
  od_chatId : JVal;
  od_earnerId : JVal;
  od_earnerName : JVal
}.

(** The body of a PayPal OrdersCreateRequest, and the parts of PayPal's
    answers the class reads. *)
Record PayPalOrderRequest := {
  ppr_currency_code : JVal;
  ppr_value : string;
  ppr_description : string;
  ppr_custom_id : JVal;
  ppr_return_url : string;
  ppr_cancel_url : string
}.

Record PayPalOrder := {
  ppo_id : JVal;                     (* order.result.id *)
  ppo_links : list JVal              (* order.result.links *)
}.

Record PurchaseUnit := {
  pu_captures : list JVal;           (* payments.captures *)
  pu_amount : JVal
}.

Record PayPalCapture := {
  cap_status : JVal;                 (* capture.result.status *)
  cap_purchase_units : list PurchaseUnit
}.

(** A request sent to a payment gateway. *)
Inductive GatewayCall : Type :=
| G_orders_create (options : JVal)
| G_paypal_create (body : PayPalOrderRequest)
| G_paypal_capture (orderId : JVal)
| G_refund (paymentId body : JVal).

Record Gateways := {
  orders_create : JVal -> Res JVal;                        (* razorpay.orders.create *)
  payments_refund : JVal -> JVal -> Res JVal;              (* razorpay.payments.refund *)
  execute_create : PayPalOrderRequest -> Res PayPalOrder;  (* paypalClient.execute *)
  execute_capture : JVal -> Res PayPalCapture;
  hmac_sha256_hex : JVal -> string -> Res string;          (* createHmac, update, digest *)
  RAZORPAY_KEY_ID : JVal;
  RAZORPAY_KEY_SECRET : JVal;
  CLIENT_URL : JVal
}.

Record Ledger := {
  clock : Z;                           (* ms *)
  users : gmap string Wallet;          (* the wallet of each User document *)
  withdrawals : list Withdrawal;
  intents : list PaymentIntent;
  payouts : list Payout;               (* payout timeouts not fired yet *)
  gateway : list GatewayCall;          (* requests sent so far *)
  rejections : list JsError            (* rejections nobody caught *)
}.


Definition set_users (m : gmap string Wallet) (L : Ledger) : Ledger :=
  {| clock := clock L; users := m; withdrawals := withdrawals L; intents := intents L;
     payouts := payouts L; gateway := gateway L; rejections := rejections L |}.

Definition set_withdrawals (l : list Withdrawal) (L : Ledger) : Ledger :=
  {| clock := clock L; users := users L; withdrawals := l; intents := intents L;
     payouts := payouts L; gateway := gateway L; rejections := rejections L |}.

Definition set_intents (l : list PaymentIntent) (L : Ledger) : Ledger :=
  {| clock := clock L; users := users L; withdrawals := withdrawals L; intents := l;
     payouts := payouts L; gateway := gateway L; rejections := rejections L |}.

Definition set_payouts (l : list Payout) (L : Ledger) : Ledger :=
  {| clock := clock L; users := users L; withdrawals := withdrawals L; intents := intents L;
     payouts := l; gateway := gateway L; rejections := rejections L |}.

Definition set_gateway (l : list GatewayCall) (L : Ledger) : Ledger :=
  {| clock := clock L; users := users L; withdrawals := withdrawals L; intents := intents L;
     payouts := payouts L; gateway := l; rejections := rejections L |}.


(** ** The monad of the methods *)

Definition Pay (A : Type) : Type := Ledger -> Res A * Ledger.

#[global] Instance Pay_ret : MRet Pay := fun A a L => (Ok a, L).

#[global] Instance Pay_bind : MBind Pay := fun A B k m L =>
  match m L with
  | (Ok a, L') => k a L'
  | (Throw e, L') => (Throw e, L')
  end.

Definition raise {A} (e : JsError) : Pay A := fun L => (Throw e, L).

(** [try { m } catch (error) { throw new Error(`<prefix>${error.message}`) }] *)
Definition rethrow {A} (prefix : string) (m : Pay A) : Pay A :=
  fun L =>
    match m L with
    | (Ok a, L') => (Ok a, L')
    | (Throw e, L') => (Throw (Error (prefix +:+ err_message e)), L')
    end.

(** [v === 'literal'] *)
Definition is_string (v : JVal) (s : string) : bool :=
  match v with
  | JStr s' => String.eqb s' s
  | _ => false
  end.

(** [v || 'literal'] *)
Definition or_default (v : JVal) (d : string) : JVal :=
  if js_truthy v then v else JStr d.

(** [v.k], which throws when [v] is [undefined] or [null]. *)
Definition field (k : string) (v : JVal) : Pay JVal :=
  if is_nullish v
  then raise (TypeError ("Cannot read properties of " +:+ js_to_string v +:+
                         " (reading '" +:+ k +:+ "')"))
  else mret (jget k v).

(** [l[0].k] for an array [l] of objects: [what] is the property read next. *)
Definition first_of {A} (what : string) (l : list A) : Pay A :=
  match l with
  | x :: _ => mret x
  | [] => raise (TypeError ("Cannot read properties of undefined (reading '" +:+ what +:+ "')"))
  end.

(** A request to a gateway: it is logged, and its answer or failure is the
    result. *)
Definition request {A} (c : GatewayCall) (r : Res A) : Pay A :=
  fun L => (r, set_gateway (gateway L ++ [c]) L).

Definition lift {A} (r : Res A) : Pay A := fun L => (r, L).

Definition Date_now : Pay Z := fun L => (Ok (clock L), L).

(** Mongoose: User.findById, user.save, Withdrawal.create, withdrawal.save,
    PaymentIntent.create. *)
Definition findById (userId : string) : Pay (option Wallet) :=
  fun L => (Ok (users L !! userId), L).

Definition user_save (userId : string) (wallet : Wallet) : Pay unit :=
  fun L => (Ok tt, set_users (<[ userId := wallet ]> (users L)) L).

Definition Withdrawal_create (doc : Withdrawal) : Pay nat :=
  fun L => (Ok (length (withdrawals L)), set_withdrawals (withdrawals L ++ [doc]) L).

Definition withdrawal_save (id : nat) (doc : Withdrawal) : Pay unit :=
  fun L => (Ok tt, set_withdrawals (<[ id := doc ]> (withdrawals L)) L).

Definition PaymentIntent_create (doc : PaymentIntent) : Pay nat :=
  fun L => (Ok (length (intents L)), set_intents (intents L ++ [doc]) L).

(** [{ ...fs, ...v }]: the properties of [v] are written over those of [fs]. *)
Fixpoint obj_set (k : string) (v : JVal) (fs : list (string * JVal))
    : list (string * JVal) :=
  match fs with
  | [] => [(k, v)]
  | (k', v') :: fs' =>
      if String.eqb k k' then (k, v) :: fs' else (k', v') :: obj_set k v fs'
  end.

Definition obj_spread (fs : list (string * JVal)) (v : JVal) : list (string * JVal) :=
  match v with
  | JObj gs => foldl (fun acc kv => obj_set kv.1 kv.2 acc) fs gs
  | _ => fs
  end.

(** [links.find(link => link.rel === rel)]; reading [rel] of [undefined] or
    [null] throws. *)
Fixpoint find_rel (rel : string) (links : list JVal) : Res (option JVal) :=
  match links with
  | [] => Ok None
  | link :: rest =>
      if is_nullish link
      then Throw (TypeError ("Cannot read properties of " +:+ js_to_string link +:+
                             " (reading 'rel')"))
      else if is_string (jget "rel" link) rel then Ok (Some link)
      else find_rel rel rest
  end.

Section PaymentServiceClass.

Variable gw : Gateways.

(** ** The methods *)

Definition razorpay_options (orderData : OrderData) : JVal :=
  JObj [("amount", JNum (od_amount orderData * 100));
        ("currency", or_default (od_currency orderData) "INR");
        ("receipt", od_receipt orderData);
        ("payment_capture", JNum 1);
        ("notes", JObj [("userId", od_userId orderData); ("chatId", od_chatId orderData);
                        ("earnerId", od_earnerId orderData)])].

(** async createRazorpayOrder(orderData) *)
Definition createRazorpayOrder (orderData : OrderData) : Pay JVal :=
  rethrow "Razorpay order creation failed: "
    (let options := razorpay_options orderData in
     order ← request (G_orders_create options) (orders_create gw options);
     orderId ← field "id" order;
     mret (JObj [("success", JBool true); ("orderId", orderId);
                 ("amount", jget "amount" order); ("currency", jget "currency" order);
                 ("key", RAZORPAY_KEY_ID gw)])).

(** async verifyRazorpayPayment(paymentId, orderId, signature) *)
Definition verifyRazorpayPayment (paymentId orderId signature : JVal) : Pay JVal :=
  rethrow "Payment verification failed: "
    (generatedSignature ←
       lift (hmac_sha256_hex gw (RAZORPAY_KEY_SECRET gw)
               (js_to_string orderId +:+ "|" +:+ js_to_string paymentId));
     if is_string signature generatedSignature
     then mret (JObj [("success", JBool true); ("verified", JBool true)])
     else mret (JObj [("success", JBool false); ("verified", JBool false)])).

Definition paypal_request (orderData : OrderData) : PayPalOrderRequest :=
  {| ppr_currency_code := or_default (od_currency orderData) "USD";
     ppr_value := pretty (od_amount orderData);
     ppr_description := "Chat session with " +:+ js_to_string (od_earnerName orderData);
     ppr_custom_id := od_chatId orderData;
     ppr_return_url := js_to_string (CLIENT_URL gw) +:+ "/payment/success";
     ppr_cancel_url := js_to_string (CLIENT_URL gw) +:+ "/payment/cancel" |}.

(** async createPayPalOrder(orderData) *)
Definition createPayPalOrder (orderData : OrderData) : Pay JVal :=
  rethrow "PayPal order creation failed: "
    (let body := paypal_request orderData in
     order ← request (G_paypal_create body) (execute_create gw body);
     approve ← lift (find_rel "approve" (ppo_links order));
     approveUrl ← field "href" (default JUndef approve);
     mret (JObj [("success", JBool true); ("orderId", ppo_id order);
                 ("approveUrl", approveUrl)])).

(** async capturePayPalOrder(orderId) *)
Definition capturePayPalOrder (orderId : JVal) : Pay JVal :=
  rethrow "PayPal capture failed: "
    (capture ← request (G_paypal_capture orderId) (execute_capture gw orderId);
     if is_string (cap_status capture) "COMPLETED"
     then
       unit0 ← first_of "payments" (cap_purchase_units capture);
       capture0 ← first_of "id" (pu_captures unit0);
       transactionId ← field "id" capture0;
       value ← field "value" (pu_amount unit0);
       mret (JObj [("success", JBool true); ("transactionId", transactionId);
                   ("amount", value);
                   ("currency", jget "currency_code" (pu_amount unit0))])
     else mret (JObj [("success", JBool false);
                      ("message", JStr "Payment not completed")])).

(** async createWalletTopUp(userId, amount, currency, method) *)
Definition createWalletTopUp (userId : string) (amount : Z) (currency method : JVal)
    : Pay JVal :=
  rethrow "Wallet top-up failed: "
    (paymentData ←
       (if is_string method "razorpay" then
          t ← Date_now;
          createRazorpayOrder
            {| od_amount := amount; od_currency := currency;
               od_receipt := JStr ("wallet_" +:+ userId +:+ "_" +:+ pretty t);
               od_userId := JStr userId; od_chatId := JUndef; od_earnerId := JUndef;
               od_earnerName := JUndef |}
        else if is_string method "paypal" then
          createPayPalOrder
            {| od_amount := amount; od_currency := currency; od_receipt := JUndef;
               od_userId := JStr userId; od_chatId := JUndef; od_earnerId := JUndef;
               od_earnerName := JUndef |}
        else raise (Error "Unsupported payment method"));
     paymentIntentId ←
       PaymentIntent_create
         {| pi_userId := userId; pi_amount := amount; pi_currency := currency;
            pi_method := method; pi_status := "pending"; pi_paymentData := paymentData;
            pi_type := "wallet_topup" |};
     mret (JObj (obj_spread [("success", JBool true);
                             ("paymentIntentId", JNum (Z.of_nat paymentIntentId))]
                            paymentData))).

(** [const minWithdrawal = method === 'bank' ? 500 : 10] *)
Definition minWithdrawal (method : JVal) : Z :=
  if is_string method "bank" then 500 else 10.

(** async initiatePayout(withdrawal): the callback is handed to setTimeout
    with a delay of 30000 ms. *)
Definition initiatePayout (id : nat) (withdrawal : Withdrawal) : Pay unit :=
  fun L => (Ok tt, set_payouts (payouts L ++ [ {| po_due := clock L + 30000; po_id := id;
                                                  po_doc := withdrawal |} ]) L).

(** async processWithdrawal(userId, amount, method, details) *)
Definition processWithdrawal (userId : string) (amount : Z) (method details : JVal)
    : Pay JVal :=
  rethrow "Withdrawal processing failed: "
    (if amount <? minWithdrawal method
     then raise (Error ("Minimum withdrawal amount is " +:+ pretty (minWithdrawal method)))
     else
       user ← findById userId;
       match user with
       | None => raise (TypeError "Cannot read properties of null (reading 'wallet')")
       | Some wallet =>
           if balance wallet <? amount then raise (Error "Insufficient balance")
           else
             let withdrawal :=
               {| wd_userId := userId; wd_amount := amount; wd_method := method;
                  wd_details := details; wd_status := "pending";
                  wd_processedAt := None |} in
             id ← Withdrawal_create withdrawal;
             user_save userId
               {| balance := balance wallet - amount;
                  pendingWithdrawal := pendingWithdrawal wallet + amount;
                  totalWithdrawn := totalWithdrawn wallet |};;
             initiatePayout id withdrawal;;
             mret (JObj [("success", JBool true); ("withdrawalId", JNum (Z.of_nat id));
                         ("message", JStr "Withdrawal request submitted successfully")])
       end).


(** async refundPayment(paymentId, amount, reason) *)
Definition refundPayment (paymentId : JVal) (amount : Z) (reason : JVal) : Pay JVal :=
  rethrow "Refund failed: "
    (let body := JObj [("amount", JNum (amount * 100));
                       ("notes", JObj [("reason", reason)])] in
     refund ← request (G_refund paymentId body) (payments_refund gw paymentId body);
     refundId ← field "id" refund;
     mret (JObj [("success", JBool true); ("refundId", refundId);
                 ("status", jget "status" refund)])).

(** ** The service over time *)






(** ** Predicates used in the statements *)

(** Everything the wallet accounts for. *)
Definition funds (wallet : Wallet) : Z :=
  balance wallet + pendingWithdrawal wallet + totalWithdrawn wallet.

(** Every wallet is still there, accounts for the same total, and its
    balance has not become negative. *)
Definition funds_kept (L L' : Ledger) : Prop :=
  ∀ u wallet, users L !! u = Some wallet ->
    ∃ wallet', users L' !! u = Some wallet' ∧ funds wallet' = funds wallet ∧
               (0 ≤ balance wallet -> 0 ≤ balance wallet').

End PaymentServiceClass.

(** * The chat page (frontend/src/components/chat/ChatInterface.jsx) *)

(** [[...new Set(l)]]: the values of [l] in the order of their first
    occurrence. *)
Definition spread_set (l : list string) : list string :=
  foldl (fun seen x => if decide (x ∈ seen) then seen else seen ++ [x]) [] l.

(** handleTyping: the update applied to typingUsers when 'typing-indicator'
    arrives with [{ userId, isTyping }]. *)
Definition handleTyping (userId : string) (isTyping : JVal) (prev : list string)
    : list string :=
  if js_truthy isTyping
  then spread_set (prev ++ [userId])
  else filter (fun id => id ≠ userId) prev.

(** typingUsers after a sequence of 'typing-indicator' events, starting from
    the initial state []. *)
Definition typingUsers (events : list (string * JVal)) : list string :=
  foldl (fun prev ev => handleTyping ev.1 ev.2 prev) [] events.

(** What the last event about [user] said, false when there is none. *)
Definition is_typing (user : string) (events : list (string * JVal)) : bool :=
  foldl (fun acc ev => if String.eqb ev.1 user then js_truthy ev.2 else acc) false events.

(** [s.padStart(n, '0')] *)
Definition padStart0 (n : nat) (s : string) : string :=
  String.concat "" (replicate (n - String.length s) "0") +:+ s.

(** formatTime(seconds), for an integer number of seconds: Math.floor of the
    quotient, and the remainder with the sign of [seconds]. *)
Definition formatTime (seconds : Z) : string :=
  let mins := seconds `div` 60 in
  let secs := Z.rem seconds 60 in
  pretty mins +:+ ":" +:+ padStart0 2 (pretty secs).


(** * More concrete collaborators, worlds and ledgers *)

Module Cases.

Import Fixture.

(** The chat service with a storage that refuses to save. *)
Definition save_fails : Env Store :=
  {| jwt_verify := jwt_verify (mk_env as_written);
     ChatService :=
       {| getChat := fun c => ok (chat_of c);
          checkChatTimeRemaining := fun _ => ok true;
          saveMessage := fun _ => failing "disk full";
          updateLastMessage := fun _ _ => ok tt;
          updateUserPresence := fun _ _ _ => ok tt;
          markAsRead := fun _ _ => ok tt;
          endChat := fun _ => ok tt;
          createPrivateChat := fun _ => ok (Some paid_chat) |};
     PaymentService := PaymentService_src;
     UserService := None;
     toISOString := fun t => pretty t;
     num_div := num_div (mk_env as_written);
     num_mul := num_mul (mk_env as_written) |}.

(** Erin is an earner whose profile is not active. *)
Definition erin_profile : EarnerProfile :=
  {| isActive := false; hourlyRate := JNum 600; services := [] |}.

Definition erin : User :=
  {| u_role := "female_earner"; u_username := JStr "Erin";
     earnerProfile := Some erin_profile |}.

Definition with_erin : Env Store :=
  {| jwt_verify := jwt_verify (mk_env completed);
     ChatService := ChatService (mk_env completed);
     PaymentService := PaymentService_full;
     UserService :=
       Some {| getUser := fun u =>
                 match u with
                 | JStr "erin" => ok (Some erin)
                 | _ => ok (user_of u)
                 end |};
     toISOString := fun t => pretty t;
     num_div := num_div (mk_env completed);
     num_mul := num_mul (mk_env completed) |}.

Definition ask_erin : JVal :=
  JObj [("earnerId", JStr "erin"); ("duration", JNum 30); ("chatType", JStr "text")].

Definition ask_bob : JVal :=
  JObj [("earnerId", JStr "bob"); ("duration", JNum 30); ("chatType", JStr "text")].

Definition bob_profile : EarnerProfile :=
  {| isActive := true; hourlyRate := JNum 600;
     services := [("voice", true); ("video", false)] |}.

Definition bob_user : User :=
  {| u_role := "female_earner"; u_username := JStr "Bob";
     earnerProfile := Some bob_profile |}.

Definition typing_start : JVal := JObj [("chatId", JStr "f1"); ("isTyping", JBool true)].


Definition away : JVal := JObj [("status", JStr "away"); ("customStatus", JStr "brb")].

(** A day on the server: the three connections and joins of [gathered], a
    call room, a message, a disconnection and the passing of time. *)
Definition a_day : list Action :=
  [ Connect "s1" (JStr "alice"); Connect "s2" (JStr "bob"); Connect "s3" (JStr "carol");
    Inbound "s1" "join-chat" (JStr "f1"); Inbound "s2" "join-chat" (JStr "f1");
    Inbound "s1" "join-call" (JStr "c1");
    Inbound "s1" "send-message" (message_to "f1");
    Close "s2"; Advance 5000; Connect "s5" (JStr "bob") ].

(** Gateways: Razorpay refuses an order that is not positive; PayPal answers
    an order without an approve link and a capture that is still pending. *)
Definition gw0 : Gateways :=
  {| orders_create := fun options =>
       match jget "amount" options with
       | JNum n =>
           if n <=? 0 then Throw (Error "amount must be positive")
           else Ok (JObj [("id", JStr "order_1"); ("amount", JNum n);
                          ("currency", jget "currency" options)])
       | _ => Throw (Error "amount must be a number")
       end;
     payments_refund := fun _ _ => Throw (Error "refunds are closed");
     execute_create := fun _ =>
       Ok {| ppo_id := JStr "PP-1";
             ppo_links := [ JObj [("rel", JStr "self");
                                  ("href", JStr "https://paypal.example/PP-1")] ] |};
     execute_capture := fun _ =>
       Ok {| cap_status := JStr "PENDING"; cap_purchase_units := [] |};
     hmac_sha256_hex := fun _ message => Ok ("hmac(" +:+ message +:+ ")");
     RAZORPAY_KEY_ID := JStr "rzp_key";
     RAZORPAY_KEY_SECRET := JStr "rzp_secret";
     CLIENT_URL := JStr "https://quikchat.example" |}.

Definition ann_wallet : Wallet :=
  {| balance := 1000; pendingWithdrawal := 0; totalWithdrawn := 0 |}.

(** Ann has 1000 in her wallet; nothing else has happened. *)
Definition L0 : Ledger :=
  {| clock := 0; users := {[ "ann" := ann_wallet ]}; withdrawals := []; intents := [];
     payouts := []; gateway := []; rejections := [] |}.

Definition top_up_order (amount : Z) : OrderData :=
  {| od_amount := amount; od_currency := JUndef;
     od_receipt := JStr ("wallet_" +:+ "ann" +:+ "_" +:+ pretty (clock L0));
     od_userId := JStr "ann"; od_chatId := JUndef; od_earnerId := JUndef;
     od_earnerName := JUndef |}.


End Cases.

(** * Reasoning about handlers *)

Section Properties.

Context {Store : Type} (env : Env Store).
Implicit Types (w : World Store) (st : Store).

(** ** Frames: what a computation leaves alone

    For a preorder [R], [frames R] goes through [bind] and [try_catch], so a
    frame of a handler follows from the frames of the primitives it is made
    of. *)

#[local] Instance due_le_total : Total due_le.
Proof. intros a b. unfold due_le. lia. Qed.

#[local] Instance due_le_trans : Transitive due_le.
Proof. intros a b c. unfold due_le. lia. Qed.

Section Frames.

Context (R : relation (World Store)) `{!PreOrder R}.

Lemma frames_ret {A} (a : A) : frames R (ret a).
Proof. intros w. reflexivity. Qed.

Lemma frames_throw {A} (e : JsError) : frames R (throw (A := A) e).
Proof. intros w. reflexivity. Qed.

Lemma frames_bind {A B} (m : M A) (k : A -> M B) :
  frames R m -> (∀ a, frames R (k a)) -> frames R (bind m k).
Proof.
  intros Hm Hk w. unfold bind. specialize (Hm w).
  destruct (m w) as [[a|e] w']; simpl in *; [|done].
  etrans; [exact Hm | apply Hk].
Qed.

Lemma frames_try_catch (m : M unit) (h : JsError -> M unit) :
  frames R m -> (∀ e, frames R (h e)) -> frames R (try_catch m h).
Proof.
  intros Hm Hh w. unfold try_catch. specialize (Hm w).
  destruct (m w) as [[a|e] w']; simpl in *; [done|].
  etrans; [exact Hm | apply Hh].
Qed.

Lemma frames_for_each {A} (f : A -> M unit) (l : list A) :
  (∀ x, frames R (f x)) -> frames R (for_each f l).
Proof.
  intros Hf. induction l as [|x l IH]; simpl.
  - apply frames_ret.
  - apply frames_bind; auto.
Qed.

Lemma frames_run_handler (m : M unit) :
  frames R m -> (∀ w e, R w (set_unhandled (unhandled w ++ [e]) w)) ->
  ∀ w, R w (run_handler m w).
Proof.
  intros Hm Hu w. unfold run_handler. specialize (Hm w).
  destruct (m w) as [[a|e] w']; simpl in *; [done|].
  etrans; [exact Hm | apply Hu].
Qed.

End Frames.

#[local] Instance same_timers_po : PreOrder (@same_timers Store).
Proof.
  split; [intros w; split; reflexivity|].
  intros x y z [? ?] [? ?]. split; congruence.
Qed.

#[local] Instance more_timers_po : PreOrder (@more_timers Store).
Proof.
  split.
  - intros w. unfold more_timers. reflexivity.
  - intros x y z H1 H2. unfold more_timers in *. etrans; eassumption.
Qed.

#[local] Instance same_clock_po : PreOrder (@same_clock Store).
Proof.
  split; [intros w; reflexivity|].
  intros x y z H1 H2. unfold same_clock in *. congruence.
Qed.

#[local] Instance same_sockets_po : PreOrder (@same_sockets Store).
Proof.
  split; [intros w; reflexivity|].
  intros x y z H1 H2. unfold same_sockets in *. congruence.
Qed.

#[local] Instance more_rooms_po sid : PreOrder (@more_rooms Store sid).
Proof.
  split; [intros w room Hr; exact Hr|].
  intros x y z H1 H2 room Hr. apply H2, H1, Hr.
Qed.

#[local] Instance emits_po Q : PreOrder (@emits Store Q).
Proof.
  split.
  - intros w. exists []. by rewrite app_nil_r.
  - intros x y z (l1 & E1 & F1) (l2 & E2 & F2). exists (l1 ++ l2). split.
    + by rewrite E2, E1, <- app_assoc.
    + by apply Forall_app.
Qed.

#[local] Instance calling_po Q : PreOrder (@calling Store Q).
Proof.
  split.
  - intros w. exists []. by rewrite app_nil_r.
  - intros x y z (l1 & E1 & F1) (l2 & E2 & F2). exists (l1 ++ l2). split.
    + by rewrite E2, E1, <- app_assoc.
    + by apply Forall_app.
Qed.

Lemma socket_rooms_join sid room sid' w :
  socket_rooms sid' (socket_join sid room w).2 =
  if decide (sid = sid') then
    (if decide (is_Some (sockets w !! sid)) then {[ room ]} ∪ socket_rooms sid' w else ∅)
  else socket_rooms sid' w.
Proof.
  unfold socket_rooms, socket_join. simpl.
  destruct (decide (sid = sid')) as [->|Hne].
  - rewrite lookup_alter_eq.
    destruct (sockets w !! sid') as [s|] eqn:E; simpl.
    + done.
    + done.
  - by rewrite lookup_alter_ne.
Qed.

Lemma more_rooms_join sid' sid room :
  frames (Store := Store) (more_rooms sid') (socket_join sid room).
Proof.
  intros w r Hr. rewrite socket_rooms_join.
  destruct (decide (sid = sid')) as [->|]; [|done].
  destruct (decide _) as [|Hn]; [set_solver|].
  unfold socket_rooms in Hr. destruct (sockets w !! sid') eqn:E; [|set_solver].
  exfalso. apply Hn. eauto.
Qed.

(** A primitive is framed by looking at the world it builds. *)
Ltac frame_prim tac :=
  let w := fresh "w" in
  intros w;
  unfold emit, call, console_log, socket_join, socket_leave, hSet, expire, setTimeout,
    date_now, get_rooms;
  try match goal with
      | |- context [ let (_, _) := ?x in _ ] => destruct x
      end;
  simpl; tac.

(** A handler is framed by going through its code. *)
Ltac frame_code lem tac :=
  unfold destructure, resolve_UserService, method, deref, prop, unbound_identifier;
  repeat first
    [ apply frames_ret; apply _
    | apply frames_throw; apply _
    | (apply frames_bind; try apply _); [| intros ?]
    | (apply frames_try_catch; try apply _); [| intros ?]
    | (apply frames_for_each; try apply _); intros ?
    | match goal with
      | |- frames _ (if ?b then _ else _) => destruct b
      | |- frames _ (match ?x with _ => _ end) => destruct x
      end
    | solve [ lem ]
    | solve [ frame_prim tac ] ].

Ltac unfold_handlers :=
  unfold on_join_chat, on_send_message, send_message_save_and_emit,
    send_message_finish, on_typing,
    on_read_receipt, on_request_private_chat, on_accept_chat_request, on_extend_chat,
    on_call_user, on_accept_call, on_reject_call, on_join_call, on_call_signal,
    on_end_call, on_update_presence, on_disconnect, leave_unless_own, on_connection,
    chat_timer_callback, auto_extend.

(** ** Timers: who sets them and who leaves them alone *)


Lemma startChatTimer_more_timers chatId duration :
  frames (Store := Store) more_timers (startChatTimer chatId duration).
Proof.
  unfold startChatTimer.
  frame_code fail ltac:(unfold more_timers; simpl; try done; by apply prefix_app_r).
Qed.

Lemma dispatch_more_timers sid uid name data :
  frames more_timers (dispatch env sid uid name data).
Proof.
  unfold dispatch, client_handlers, handler_of.
  repeat (case_match; simplify_eq); try (apply frames_ret; apply _);
    unfold_handlers;
    frame_code ltac:(apply startChatTimer_more_timers) ltac:(unfold more_timers; by simpl).
Qed.

(** ** Calls are only ever appended *)

Ltac frame_calls :=
  frame_code fail
    ltac:(first [ by (eexists; split; [reflexivity|]; repeat constructor)
                | by (exists []; rewrite app_nil_r) ]).

Lemma send_message_save_and_emit_calls uid data chat :
  frames (calling any_call) (send_message_save_and_emit env uid data chat).
Proof. unfold_handlers. frame_calls. Qed.

(** * The claims *)

(** ** Sending a message *)

(** C1. A send-message event for a paid chat ([chat.type === 'private_paid'])
    whose time check answers that no time is left is refused: the sending
    socket, and nobody else, is sent 'chat-error' with the message
    'Chat time expired'; saveMessage is not called and the store is left as the
    time check left it; nothing is emitted to the chat room. The time check is
    the call that follows the loading of the chat, so it comes before any
    saveMessage. *)
Theorem send_message_paid_without_time sid uid data w chat st1 :
  is_nullish data = false ->
  getChat (CS env) (jget "chatId" data) (store w) = (Ok (Some chat), st1) ->
  chat_type chat = "private_paid" ->
  let chatId := jget "chatId" data in
  let r := on_send_message env sid uid data w in
  (∃ rest, calls r.2 = calls w ++ C_getChat chatId :: C_checkChatTimeRemaining chatId :: rest) ∧
  (∀ st2, checkChatTimeRemaining (CS env) chatId st1 = (Ok false, st2) ->
     r.1 = Ok tt ∧
     out r.2 = out w ++ [ emitted (ToSocket sid) "chat-error"
                                  (error_payload "Chat time expired") w ] ∧
     calls r.2 = calls w ++ [ C_getChat chatId; C_checkChatTimeRemaining chatId ] ∧
     store r.2 = st2).
Proof.
  intros Hdata Hchat Hpaid chatId r. subst r chatId.
  unfold on_send_message, try_catch, bind, destructure, call, deref.
  rewrite Hdata. simpl. rewrite Hchat. simpl. rewrite Hpaid. simpl.
  destruct (checkChatTimeRemaining (CS env) (jget "chatId" data) st1) as [[hasTime|e] st2] eqn:Hcheck;
    simpl.
  - split.
    + destruct hasTime; simpl.
      * match goal with
        | |- context [ send_message_save_and_emit env uid data chat ?w1 ] =>
            pose proof (send_message_save_and_emit_calls uid data chat w1) as (l & El & _);
            destruct (send_message_save_and_emit env uid data chat w1) as [[u|e] w2]
        end; simpl in *.
        -- exists l. rewrite El. by rewrite <- !app_assoc.
        -- exists l. rewrite El. by rewrite <- !app_assoc.
      * exists []. by rewrite <- !app_assoc.
    + intros st2' [= -> ->]. simpl. by rewrite <- !app_assoc.
  - split; [|intros st2' [=]]. simpl. exists []. by rewrite <- !app_assoc.
Qed.

(** Running a handler on a world, one branch per outcome of its calls. *)
Ltac run_code :=
  unfold destructure, resolve_UserService, method, deref, prop, unbound_identifier in *;
  unfold bind, try_catch, call, emit, date_now, ret, throw in *;
  simpl in *;
  repeat (case_match; simpl in *; simplify_eq).

(** ** Extending a paid chat *)


(** ** Rooms *)

Lemma elem_of_members sid room w :
  sid ∈ members room w ↔ room ∈ socket_rooms sid w.
Proof.
  unfold members, socket_rooms. rewrite elem_of_dom. split.
  - intros [s Hs]. apply map_lookup_filter_Some in Hs as [Hs Hr].
    rewrite Hs. exact Hr.
  - intros Hr. destruct (sockets w !! sid) as [s|] eqn:Hs; [|set_solver].
    exists s. apply map_lookup_filter_Some. split; [done|exact Hr].
Qed.

Lemma socket_rooms_leave sid room sid' w :
  socket_rooms sid' (socket_leave sid room w).2 =
  if decide (sid = sid') then socket_rooms sid' w ∖ {[ room ]} else socket_rooms sid' w.
Proof.
  unfold socket_rooms, socket_leave. simpl.
  destruct (decide (sid = sid')) as [->|Hne].
  - rewrite lookup_alter_eq.
    destruct (sockets w !! sid') as [s|] eqn:E; simpl; [done|set_solver].
  - by rewrite lookup_alter_ne.
Qed.

Lemma leave_loop_cons sid room l w :
  for_each (leave_unless_own sid) (room :: l) w =
  for_each (leave_unless_own sid) l (leave_unless_own sid room w).2.
Proof.
  simpl. unfold bind, leave_unless_own.
  destruct (String.eqb room sid); reflexivity.
Qed.

Lemma socket_rooms_leave_unless_own sid room w :
  socket_rooms sid (leave_unless_own sid room w).2 =
  socket_rooms sid w ∖ ({[ room ]} ∖ {[ sid ]}).
Proof.
  unfold leave_unless_own.
  destruct (String.eqb_spec room sid) as [->|Hne].
  - simpl. set_solver.
  - rewrite socket_rooms_leave, decide_True by done. set_solver.
Qed.

Lemma leave_loop_ok sid l w : (for_each (leave_unless_own sid) l w).1 = Ok tt.
Proof.
  revert w. induction l as [|room l IH]; intros w; [done|].
  rewrite leave_loop_cons. apply IH.
Qed.

Lemma leave_loop_rooms sid l w :
  socket_rooms sid (for_each (leave_unless_own sid) l w).2 =
  socket_rooms sid w ∖ (list_to_set l ∖ {[ sid ]}).
Proof.
  revert w. induction l as [|room l IH]; intros w.
  - simpl. set_solver.
  - rewrite leave_loop_cons, IH, socket_rooms_leave_unless_own. set_solver.
Qed.

#[local] Instance same_but_sockets_po : PreOrder (@same_but_sockets Store).
Proof.
  split.
  - intros w. unfold same_but_sockets. by split_and!.
  - intros x y z H1 H2. unfold same_but_sockets in *.
    destruct_and!. split_and!; congruence.
Qed.

Lemma leave_loop_frame sid l :
  frames (Store := Store) same_but_sockets (for_each (leave_unless_own sid) l).
Proof.
  unfold leave_unless_own.
  frame_code fail ltac:(unfold same_but_sockets; by split_and!).
Qed.

(** ** Disconnecting *)

Lemma hGet_hSet key field key' field' value w :
  hGet key field (hSet key' field' value w).2 =
  if decide (key' = key ∧ field' = field) then Some value else hGet key field w.
Proof.
  unfold hGet, hSet. simpl.
  destruct (decide (key' = key)) as [->|Hk].
  - rewrite lookup_insert_eq.
    destruct (decide (field' = field)) as [->|Hf].
    + rewrite lookup_insert_eq. by rewrite decide_True.
    + rewrite lookup_insert_ne by done. rewrite decide_False by naive_solver.
      by destruct (redis w !! key).
  - rewrite lookup_insert_ne by done. by rewrite decide_False by naive_solver.
Qed.

Lemma hGet_same_redis key field w w' :
  redis w' = redis w -> hGet key field w' = hGet key field w.
Proof. unfold hGet. by intros ->. Qed.

Lemma hGet_emit key field t name payload w :
  hGet key field (emit t name payload w).2 = hGet key field w.
Proof. reflexivity. Qed.

Lemma hGet_console_log key field line w :
  hGet key field (console_log line w).2 = hGet key field w.
Proof. reflexivity. Qed.

(** What the disconnect handler does, step by step. *)
Lemma on_disconnect_unfold sid uid w :
  let w1 := (console_log ("User disconnected: " +:+ uid) w).2 in
  let w2 := (hSet (user_room uid) "status" "offline" w1).2 in
  let w3 := (hSet (user_room uid) "lastSeen" (toISOString env (now w)) w2).2 in
  let w4 := (emit (BroadcastExcept sid) "user-status"
                  (JObj [("userId", JStr uid); ("status", JStr "offline")]) w3).2 in
  on_disconnect env sid uid w =
  for_each (leave_unless_own sid) (elements (socket_rooms sid w)) w4.
Proof. reflexivity. Qed.

(** C4, as the code has it. The disconnect handler sets the identity's status
    to offline and its last-seen time to the current time in every case: it
    does not read the socket id registered for the identity, which it leaves
    as it is, so the disconnect of a connection that is no longer the
    registered one marks the identity offline as well. *)
Theorem disconnect_always_sets_offline sid uid w :
  let w' := (on_disconnect env sid uid w).2 in
  hGet (user_room uid) "status" w' = Some "offline" ∧
  hGet (user_room uid) "lastSeen" w' = Some (toISOString env (now w)) ∧
  hGet (user_room uid) "socketId" w' = hGet (user_room uid) "socketId" w.
Proof.
  intros w'. subst w'. rewrite on_disconnect_unfold. cbv zeta.
  match goal with
  | |- context [ for_each _ ?l ?w4 ] =>
      pose proof (leave_loop_frame sid l w4) as (_ & Hredis & _)
  end.
  rewrite !(hGet_same_redis _ _ _ _ Hredis). clear Hredis.
  rewrite !hGet_emit, !hGet_hSet, !hGet_console_log.
  split_and!; repeat (destruct (decide _) as [[? ?]|?]; simplify_eq); try done;
    naive_solver.
Qed.

Lemma run_handler_ok (m : M unit) w : (m w).1 = Ok tt -> run_handler m w = (m w).2.
Proof. unfold run_handler. destruct (m w) as [[[]|e] w']; simpl; [done|discriminate]. Qed.

Lemma on_disconnect_ok sid uid w : (on_disconnect env sid uid w).1 = Ok tt.
Proof. rewrite on_disconnect_unfold. apply leave_loop_ok. Qed.

Lemma on_disconnect_rooms sid uid w :
  socket_rooms sid (on_disconnect env sid uid w).2 =
  socket_rooms sid w ∖ (socket_rooms sid w ∖ {[ sid ]}).
Proof.
  rewrite on_disconnect_unfold. cbv zeta. rewrite leave_loop_rooms.
  rewrite list_to_set_elements_L. reflexivity.
Qed.

(** C5, as the code has it. The disconnect handler takes the socket out of
    every room it is in except the room named by its own id, and emits one
    event: 'user-status' with status offline, to every other connected socket.
    It emits no call event and keeps no record of calls. With the teardown
    Socket.IO does before the handler runs, the closed socket is in no room at
    all. *)
Theorem disconnect_leaves_rooms_and_reports_offline sid uid w :
  let r := on_disconnect env sid uid w in
  r.1 = Ok tt ∧
  (∀ room, room ≠ sid -> sid ∉ members room r.2) ∧
  out r.2 = out w ++ [ emitted (BroadcastExcept sid) "user-status"
                         (JObj [("userId", JStr uid); ("status", JStr "offline")]) w ] ∧
  (∀ room, sid ∉ members room (close env sid w)).
Proof.
  intros r. subst r. split_and!.
  - apply on_disconnect_ok.
  - intros room Hne. rewrite elem_of_members, on_disconnect_rooms. set_solver.
  - rewrite on_disconnect_unfold. cbv zeta.
    match goal with
    | |- context [ for_each _ ?l ?w4 ] =>
        pose proof (leave_loop_frame sid l w4) as (_ & _ & _ & _ & _ & Hout & _)
    end.
    rewrite Hout. reflexivity.
  - intros room. rewrite elem_of_members. unfold close.
    destruct (sockets w !! sid) as [s|] eqn:Hs.
    + rewrite run_handler_ok by apply on_disconnect_ok.
      rewrite on_disconnect_rooms.
      assert (socket_rooms sid (set_sockets (delete sid (sockets w)) w) = ∅) as ->.
      { unfold socket_rooms. simpl. by rewrite lookup_delete_eq. }
      set_solver.
    + unfold socket_rooms. rewrite Hs. set_solver.
Qed.

(** ** Calling a user *)

(** C6, as the code has it. When the name UserService is bound and the callee
    is found: if the callee is a 'female_earner' with the requested service
    not enabled, the caller alone is sent 'error' ('This service is not
    available') and no invitation goes out; in every other case, whether the
    callee is online or not, 'incoming-call' with a new call id is emitted to
    the callee's user room (every socket in it but the caller's) and
    'call-initiated' to the caller. No record of the call is kept. *)
Theorem call_user_checks_the_service_only sid uid data w us user st1 :
  is_nullish data = false ->
  UserService env = Some us ->
  getUser us (jget "userId" data) (store w) = (Ok (Some user), st1) ->
  (u_role user = "female_earner" -> is_Some (earnerProfile user)) ->
  let callee := jget "userId" data in
  let type := jget "type" data in
  let r := on_call_user env sid uid data w in
  r.1 = Ok tt ∧
  calls r.2 = calls w ++ [ C_getUser callee ] ∧
  sockets r.2 = sockets w ∧ timers r.2 = timers w ∧ redis r.2 = redis w ∧
  out r.2 =
    out w ++
    (if service_disabled user type
     then [ emitted (ToSocket sid) "error"
                    (error_payload "This service is not available") w ]
     else [ emitted (ToRoomExcept (user_room (js_to_string callee)) sid) "incoming-call"
                    (JObj [("callId", call_id (now w) uid callee);
                           ("callerId", JStr uid); ("type", type);
                           ("isVideo", jget "isVideo" data)]) w;
            emitted (ToSocket sid) "call-initiated"
                    (JObj [("callId", call_id (now w) uid callee)]) w ]).
Proof.
  intros Hdata Hus Huser Hprofile callee type r. subst r callee type.
  unfold on_call_user, service_disabled, call_id.
  unfold destructure, resolve_UserService, deref, bind, call, ret, throw, date_now.
  rewrite Hdata, Hus. simpl. rewrite Huser. simpl.
  destruct (String.eqb_spec (u_role user) "female_earner") as [Hrole|Hrole]; simpl.
  - destruct (Hprofile Hrole) as [profile ->]. simpl.
    destruct (service_enabled profile (jget "type" data)); simpl;
      split_and!; try done; by rewrite <- app_assoc.
  - split_and!; try done; by rewrite <- app_assoc.
Qed.

(** ** Failures inside a handler *)

(** C8, on the read-receipt handler. When markAsRead fails, the handler has
    no catch: its promise is rejected with that error, no event at all is
    emitted, and so the socket that sent the read receipt gets no 'error'
    event. *)
Theorem read_receipt_failure_is_not_reported sid data w s e st :
  sockets w !! sid = Some s ->
  is_nullish data = false ->
  markAsRead (CS env) (jget "messageId" data) (userId s) (store w) = (Throw e, st) ->
  (on_read_receipt env sid (userId s) data w).1 = Throw e ∧
  out (inbound env sid "read-receipt" data w) = out w ∧
  unhandled (inbound env sid "read-receipt" data w) = unhandled w ++ [e].
Proof.
  intros Hs Hdata Hmark. unfold inbound. rewrite Hs.
  unfold dispatch, run_handler. simpl.
  unfold on_read_receipt, destructure, bind, call. rewrite Hdata. simpl.
  rewrite Hmark. simpl. done.
Qed.

(** The four handlers written with try and catch never reject: whatever
    fails inside them ends as an event to the sending socket. *)
Lemma try_catch_emit_ok (m : M unit) t name (payload : JsError -> JVal) w :
  (try_catch m (fun e => emit t name (payload e)) w).1 = Ok tt.
Proof. unfold try_catch. by destruct (m w) as [[[]|e] w']. Qed.

Lemma guarded_handlers_never_reject sid uid data w :
  (on_send_message env sid uid data w).1 = Ok tt ∧
  (on_request_private_chat env sid uid data w).1 = Ok tt ∧
  (on_accept_chat_request env sid uid data w).1 = Ok tt ∧
  (on_extend_chat env sid uid data w).1 = Ok tt.
Proof. split_and!; apply try_catch_emit_ok. Qed.

(** X1. No handler sends an 'error' or 'chat-error' event to anyone but the socket
    whose event it is handling. *)
Lemma dispatch_errors_to_sender sid uid name data :
  frames (emits (error_to sid)) (dispatch env sid uid name data).
Proof.
  unfold dispatch, client_handlers, handler_of.
  repeat (case_match; simplify_eq); try (apply frames_ret; apply _);
    unfold_handlers; unfold startChatTimer;
    frame_code fail
      ltac:(first [ by (exists []; rewrite app_nil_r)
                  | eexists; split; [reflexivity|]; repeat constructor;
                    unfold error_to; simpl; naive_solver ]).
Qed.

(** ** Sending without being in the room *)

Lemma send_message_finish_frame uid chatId message chat :
  frames (fun w w' => calling any_call w w' ∧ emits any_emit w w')
         (send_message_finish env uid chatId message chat).
Proof.
  assert (PreOrder (fun w w' : World Store => calling any_call w w' ∧ emits any_emit w w')).
  { split.
    - intros w. split; reflexivity.
    - intros x y z [? ?] [? ?]. split; etrans; eassumption. }
  unfold_handlers.
  frame_code fail
    ltac:(split;
          first [ by (eexists; split; [reflexivity|]; repeat constructor)
                | by (exists []; rewrite app_nil_r) ]).
Qed.

(** C7, as the code has it. The send-message handler never looks at the
    membership of the room: its first step is to load the chat. When the
    sender's socket is not in the chat room, the message is saved and emitted
    to the room all the same, provided the chat is found, the time check (made
    for paid chats only) passes and saveMessage succeeds. *)
Theorem send_message_ignores_membership sid uid data w chat st1 st2 message st3 :
  sid ∉ members (chat_room (jget "chatId" data)) w ->
  is_nullish data = false ->
  getChat (CS env) (jget "chatId" data) (store w) = (Ok (Some chat), st1) ->
  (if String.eqb (chat_type chat) "private_paid"
   then checkChatTimeRemaining (CS env) (jget "chatId" data) st1 = (Ok true, st2)
   else st2 = st1) ->
  saveMessage (CS env) (message_input uid data) st2 = (Ok message, st3) ->
  let chatId := jget "chatId" data in
  let r := on_send_message env sid uid data w in
  r.1 = Ok tt ∧
  (∃ rest, calls r.2 =
           calls w ++ C_getChat chatId :: time_check chat chatId ++
           C_saveMessage (message_input uid data) :: rest) ∧
  (∃ rest, out r.2 =
           out w ++ emitted (ToRoom (chat_room chatId)) "new-message" message w :: rest).
Proof.
  intros _ Hdata Hchat Hcheck Hsave chatId r. subst chatId.
  assert (Hr : r = on_send_message env sid uid data w) by reflexivity. clearbody r.
  unfold on_send_message, try_catch, bind at 1 2 3, destructure, call at 1, deref in Hr.
  rewrite Hdata in Hr. simpl in Hr. rewrite Hchat in Hr. simpl in Hr.
  assert (∀ w1, store w1 = st2 -> now w1 = now w -> sockets w1 = sockets w ->
            ∀ r, r = (let (r0, w') := send_message_save_and_emit env uid data chat w1 in
                      match r0 with
                      | Ok a => (Ok a, w')
                      | Throw e => emit (ToSocket sid) "error"
                                        (error_payload (err_message e)) w'
                      end) ->
            r.1 = Ok tt ∧
            (∃ rest, calls r.2 = calls w1 ++ C_saveMessage (message_input uid data) :: rest) ∧
            (∃ rest, out r.2 = out w1 ++ emitted (ToRoom (chat_room (jget "chatId" data)))
                                                 "new-message" message w :: rest)) as Hrun.
  { clear r Hr. intros w1 Hst Hnow Hsock r Hr.
    unfold send_message_save_and_emit, bind at 1 2, call at 1 in Hr.
    rewrite Hst, Hsave in Hr. simpl in Hr.
    match type of Hr with
    | context [ send_message_finish env ?u ?c ?m ?ch ?w2 ] =>
        pose proof (send_message_finish_frame u c m ch w2) as [(lc & Ec & _) (lo & Eo & _)];
        destruct (send_message_finish env u c m ch w2) as [[[]|e] w3]
    end; subst r; simpl in *.
    - split_and!; [done| |].
      + exists lc. by rewrite Ec, <- app_assoc.
      + exists lo. rewrite Eo, <- app_assoc. simpl.
        unfold emitted, recipients, members. simpl. by rewrite Hnow, Hsock.
    - split_and!; [done| |].
      + exists lc. by rewrite Ec, <- app_assoc.
      + exists (lo ++ [emitted (ToSocket sid) "error" (error_payload (err_message e)) w3]).
        rewrite Eo, <- !app_assoc. simpl.
        unfold emitted at 1 3, recipients, members. simpl. by rewrite Hnow, Hsock. }
  unfold time_check.
  destruct (String.eqb (chat_type chat) "private_paid").
  - unfold bind, call in Hr. simpl in Hr. rewrite Hcheck in Hr. simpl in Hr.
    apply Hrun in Hr as (H1 & (rc & H2) & (ro & H3)); [|done..].
    split_and!; [exact H1| |].
    + exists rc. rewrite H2. simpl. by rewrite <- !app_assoc.
    + exists ro. rewrite H3. done.
  - subst st2.
    apply Hrun in Hr as (H1 & (rc & H2) & (ro & H3)); [|done..].
    split_and!; [exact H1| |].
    + exists rc. rewrite H2. simpl. by rewrite <- !app_assoc.
    + exists ro. rewrite H3. done.
Qed.

(** ** What the server's steps leave alone *)

Lemma auth_middleware_more_timers sid token :
  frames more_timers (auth_middleware env sid token).
Proof.
  unfold auth_middleware.
  frame_code fail ltac:(unfold more_timers; by simpl).
Qed.

Lemma on_disconnect_more_timers sid uid : frames more_timers (on_disconnect env sid uid).
Proof. unfold_handlers. frame_code fail ltac:(unfold more_timers; by simpl). Qed.

(** No connection, event or disconnection removes a pending timer. *)
Lemma step_more_timers a w : is_advance a = false -> more_timers w (step env w a).
Proof.
  intros Ha. destruct a as [sid token|sid name data|sid|t]; simpl; [| | |done].
  - unfold connect. destruct (sockets w !! sid); [reflexivity|].
    pose proof (auth_middleware_more_timers sid token w) as H1.
    destruct (auth_middleware env sid token w) as [[[[uid role]|]|e] w1]; simpl in *; done.
  - unfold inbound. destruct (sockets w !! sid); [|reflexivity].
    apply frames_run_handler; [apply _|apply dispatch_more_timers|].
    intros; unfold more_timers; by simpl.
  - unfold close. destruct (sockets w !! sid); [|reflexivity].
    match goal with
    | |- more_timers _ (run_handler ?m ?w2) =>
        change (more_timers w2 (run_handler m w2)); generalize w2
    end.
    apply frames_run_handler; [apply _|apply on_disconnect_more_timers|].
    intros; unfold more_timers; by simpl.
Qed.

Lemma run_more_timers l w :
  Forall (fun a => is_advance a = false) l -> more_timers w (run env w l).
Proof.
  revert w. induction l as [|a l IH]; intros w Hl; simpl; [reflexivity|].
  inversion Hl as [|? ? Ha Hl']; subst.
  etrans; [apply step_more_timers, Ha | apply IH, Hl'].
Qed.

(** ** Accepting a chat request *)

Lemma startChatTimer_spec chatId duration w :
  startChatTimer chatId duration w =
  (Throw (ReferenceError "chatTimers is not defined"),
   set_timers (timers w ++ [ chat_timer chatId duration w ]) (S (next_timer w)) w).
Proof. reflexivity. Qed.

(** C9. When an accept-chat-request gets as far as starting the timer (the
    payment is accepted, the chat is created and has payment details), the
    handler emits 'chat-started' to the chat room, startChatTimer sets the
    timeout and then throws ReferenceError 'chatTimers is not defined', and
    the handler's catch sends that message as an 'error' event to the accepting
    socket. The resulting world differs from the initial one by the two calls,
    the two events and the pending timer only: the timer handle is kept
    nowhere. No later connection, event or disconnection takes the timer out
    of the pending list. *)
Theorem accept_chat_request_timer_is_lost sid uid data w f st1 chat st2 details :
  is_nullish data = false ->
  acceptPayment (PS env) = Some f ->
  f (jget "requestId" data) (store w) = (Ok tt, st1) ->
  createPrivateChat (CS env) (jget "requestId" data) st1 = (Ok (Some chat), st2) ->
  paymentDetails chat = Some details ->
  let requestId := jget "requestId" data in
  let duration := totalDuration details in
  let r := on_accept_chat_request env sid uid data w in
  (∀ w1, (startChatTimer (chat_id chat) duration w1).1 =
         Throw (ReferenceError "chatTimers is not defined")) ∧
  r.1 = Ok tt ∧
  r.2 = {| now := now w; sockets := sockets w; redis := redis w;
           redis_ttl := redis_ttl w;
           timers := timers w ++ [ chat_timer (chat_id chat) duration w ];
           next_timer := S (next_timer w);
           out := out w ++
                  [ emitted (ToRoom (chat_room (chat_id chat))) "chat-started"
                            (JObj [("chatId", chat_id chat); ("duration", JNum duration)]) w;
                    emitted (ToSocket sid) "error"
                            (error_payload "chatTimers is not defined") w ];
           calls := calls w ++ [ C_acceptPayment requestId; C_createPrivateChat requestId ];
           console := console w; unhandled := unhandled w; store := st2 |} ∧
  (∀ l, Forall (fun a => is_advance a = false) l ->
        chat_timer (chat_id chat) duration w ∈ timers (run env r.2 l)).
Proof.
  intros Hdata Hf Haccept Hcreate Hdetails requestId duration r.
  assert (Hr : r = on_accept_chat_request env sid uid data w) by reflexivity. clearbody r.
  subst requestId duration.
  unfold on_accept_chat_request, try_catch, bind, destructure, method, deref, call in Hr.
  rewrite Hdata, Hf in Hr. simpl in Hr. rewrite Haccept in Hr. simpl in Hr.
  rewrite Hcreate in Hr. simpl in Hr. rewrite Hdetails in Hr. simpl in Hr.
  assert (r.2 = {| now := now w; sockets := sockets w; redis := redis w;
           redis_ttl := redis_ttl w;
           timers := timers w ++ [ chat_timer (chat_id chat) (totalDuration details) w ];
           next_timer := S (next_timer w);
           out := out w ++
                  [ emitted (ToRoom (chat_room (chat_id chat))) "chat-started"
                            (JObj [("chatId", chat_id chat);
                                   ("duration", JNum (totalDuration details))]) w;
                    emitted (ToSocket sid) "error"
                            (error_payload "chatTimers is not defined") w ];
           calls := calls w ++ [ C_acceptPayment (jget "requestId" data);
                                 C_createPrivateChat (jget "requestId" data) ];
           console := console w; unhandled := unhandled w; store := st2 |}) as Hw.
  { subst r. unfold emit, set_out, set_timers, set_store, chat_timer. simpl.
    by rewrite <- !app_assoc. }
  split_and!.
  - intros w1. by rewrite startChatTimer_spec.
  - by subst r.
  - exact Hw.
  - intros l Hl. pose proof (run_more_timers l r.2 Hl) as Hpre.
    unfold more_timers in Hpre. eapply elem_of_prefix; [|exact Hpre].
    rewrite Hw. simpl. set_solver.
Qed.

(** With the payment service as ../services/PaymentService.js exports it,
    [acceptPayment] is not a method of the object: the handler fails on its
    first call, sends 'error' to the socket and sets no timer. *)
Remark accept_chat_request_without_acceptPayment sid uid data w :
  is_nullish data = false ->
  acceptPayment (PS env) = None ->
  on_accept_chat_request env sid uid data w =
  (Ok tt,
   set_out (out w ++ [ emitted (ToSocket sid) "error"
                         (error_payload "PaymentService.acceptPayment is not a function")
                         w ]) w).
Proof.
  intros Hdata Hnone.
  unfold on_accept_chat_request, try_catch, bind, destructure, method.
  rewrite Hdata, Hnone. reflexivity.
Qed.

(** ** Leaving a chat *)

Ltac frame_rooms :=
  frame_code ltac:(apply more_rooms_join)
             ltac:(let room := fresh "room" in intros room; unfold socket_rooms; by simpl).

Lemma dispatch_more_rooms sid' sid uid name data :
  frames (more_rooms sid') (dispatch env sid uid name data).
Proof.
  unfold dispatch, client_handlers, handler_of.
  repeat (case_match; simplify_eq); try (apply frames_ret; apply _);
    unfold_handlers; unfold startChatTimer; frame_rooms.
Qed.

Lemma chat_timer_callback_same_sockets chatId :
  frames same_sockets (chat_timer_callback env chatId).
Proof. unfold_handlers. frame_code fail ltac:(unfold same_sockets; by simpl). Qed.

Lemma fire_same_sockets w tm : sockets (fire env w tm) = sockets w.
Proof.
  unfold fire.
  match goal with
  | |- sockets (run_handler ?m ?w2) = _ =>
      change (same_sockets w2 (run_handler m w2)); generalize w2
  end.
  apply frames_run_handler; [apply _|apply chat_timer_callback_same_sockets|].
  intros; unfold same_sockets; by simpl.
Qed.

Lemma advance_same_sockets t w : sockets (advance env t w) = sockets w.
Proof.
  unfold advance. simpl. generalize (due_timers t w). intros l.
  revert w. induction l as [|tm l IH]; intros w; simpl; [done|].
  by rewrite IH, fire_same_sockets.
Qed.

Lemma on_disconnect_other_rooms sid' sid uid :
  sid' ≠ sid -> frames (more_rooms sid') (on_disconnect env sid uid).
Proof.
  intros Hne. unfold_handlers.
  frame_code
    ltac:(let w := fresh "w" in let room := fresh "room" in
          intros w room; rewrite socket_rooms_leave; by rewrite decide_False)
    ltac:(let room := fresh "room" in intros room; unfold socket_rooms; by simpl).
Qed.

(** Short of its own disconnection, nothing takes a socket out of a room. *)
Lemma step_more_rooms sid a w : a ≠ Close sid -> more_rooms sid w (step env w a).
Proof.
  intros Ha. destruct a as [sid' token|sid' name data|sid'|t]; simpl.
  - unfold connect. destruct (sockets w !! sid') eqn:Hs; [reflexivity|].
    destruct (auth_middleware env sid' token w) as [[[[uid role]|]|e] w1] eqn:Hauth;
      simpl in *.
    + assert (sockets w1 = sockets w) as Hw1.
      { unfold auth_middleware in Hauth. run_code; done. }
      intros room. unfold socket_rooms. simpl.
      destruct (decide (sid' = sid)) as [->|Hne].
      * rewrite Hs. set_solver.
      * rewrite lookup_alter_ne, lookup_insert_ne, Hw1 by done. done.
    + assert (sockets w1 = sockets w) as Hw1.
      { unfold auth_middleware in Hauth. run_code; done. }
      intros room. unfold socket_rooms. by rewrite Hw1.
    + assert (sockets w1 = sockets w) as Hw1.
      { unfold auth_middleware in Hauth. run_code; done. }
      intros room. unfold socket_rooms. by rewrite Hw1.
  - unfold inbound. destruct (sockets w !! sid'); [|reflexivity].
    apply frames_run_handler; [apply _|apply dispatch_more_rooms|].
    intros w0 e room. unfold socket_rooms. by simpl.
  - assert (sid' ≠ sid) as Hne by congruence.
    unfold close. destruct (sockets w !! sid'); [|reflexivity].
    match goal with
    | |- more_rooms _ _ (run_handler ?m ?w2) =>
        transitivity w2; [|generalize w2]
    end.
    + intros room. unfold socket_rooms. simpl. by rewrite lookup_delete_ne.
    + apply frames_run_handler;
        [apply _|apply on_disconnect_other_rooms, not_eq_sym, Hne|].
      intros w0 e room. unfold socket_rooms. by simpl.
  - intros room. unfold socket_rooms. by rewrite advance_same_sockets.
Qed.

Lemma run_more_rooms sid l w :
  Forall (fun a => a ≠ Close sid) l -> more_rooms sid w (run env w l).
Proof.
  revert w. induction l as [|a l IH]; intros w Hl; simpl; [reflexivity|].
  inversion Hl as [|? ? Ha Hl']; subst.
  etrans; [apply step_more_rooms, Ha | apply IH, Hl'].
Qed.

(** C10. The module registers no listener for 'leave-chat', so such an event
    changes nothing on the server. A socket that is in a chat room is still in
    it afterwards and, whatever connections, events, timers and disconnections
    of other sockets follow, stays in it until it disconnects itself: every
    'new-message' emitted to the room in the meantime reaches it. *)
Theorem leave_chat_is_not_handled sid chatId l w :
  sid ∈ members (chat_room chatId) w ->
  Forall (fun a => a ≠ Close sid) l ->
  handler_of "leave-chat" (client_handlers env) = None ∧
  inbound env sid "leave-chat" chatId w = w ∧
  let w' := run env w (Inbound sid "leave-chat" chatId :: l) in
  sid ∈ members (chat_room chatId) w' ∧
  ∀ message,
    sid ∈ e_rcpt (emitted (ToRoom (chat_room chatId)) "new-message" message w').
Proof.
  intros Hin Hl.
  assert (inbound env sid "leave-chat" chatId w = w) as Hsame.
  { unfold inbound. by destruct (sockets w !! sid). }
  split_and!; [done|exact Hsame|].
  cbv zeta. simpl. rewrite Hsame.
  assert (sid ∈ members (chat_room chatId) (run env w l)) as Hstill.
  { apply elem_of_members. apply (run_more_rooms sid l w Hl).
    by apply elem_of_members. }
  split; [exact Hstill|]. intros message. exact Hstill.
Qed.

(** ** The chat timer *)

#[local] Instance quiet_po room : PreOrder (@quiet Store room).
Proof.
  split.
  - intros w. split; reflexivity.
  - intros x y z [? ?] [? ?]. split; etrans; eassumption.
Qed.

















(** * Further properties of the module *)

(** ** The handshake *)

(** X2. A handshake whose token is missing (or any other falsy value), or is
    rejected by jwt.verify, is refused by the middleware and leaves the server
    as it was: nothing is written to Redis, no socket is registered, no event
    is emitted. *)
Theorem refused_handshake_leaves_no_trace sid token w :
  js_truthy token = false ∨ (∃ e, jwt_verify env token = Throw e) ->
  (auth_middleware env sid token w).1 = Ok None ∧
  connect env sid token w = w.
Proof.
  intros Hbad. unfold connect, auth_middleware.
  destruct (js_truthy token) eqn:Htoken; simpl.
  - destruct Hbad as [?|[e He]]; [done|]. rewrite He. simpl.
    split; [done|]. by destruct (sockets w !! sid).
  - split; [done|]. by destruct (sockets w !! sid).
Qed.

(** X3. A handshake with a token jwt.verify accepts registers the connection: the
    user's Redis hash gets this socket id and the status online and expires in
    86400 seconds; the socket is in the room named by its id and in its user
    room; 'connected' goes to the socket itself and 'user-status' (online) to
    every socket that was connected before, and to no other. *)
Theorem accepted_handshake_registers_presence sid token uid role w :
  sockets w !! sid = None ->
  js_truthy token = true ->
  jwt_verify env token = Ok (uid, role) ->
  let w' := connect env sid token w in
  hGet (user_room uid) "socketId" w' = Some sid ∧
  hGet (user_room uid) "status" w' = Some "online" ∧
  redis_ttl w' !! user_room uid = Some 86400 ∧
  sockets w' = <[ sid := {| userId := uid; userRole := role;
                            rooms := {[ user_room uid; sid ]} |} ]> (sockets w) ∧
  out w' = out w ++
    [ {| e_target := ToSocket sid; e_rcpt := {[ sid ]}; e_name := "connected";
         e_payload := JObj [("userId", JStr uid)]; e_time := now w |};
      {| e_target := BroadcastExcept sid; e_rcpt := dom (sockets w);
         e_name := "user-status";
         e_payload := JObj [("userId", JStr uid); ("status", JStr "online")];
         e_time := now w |} ] ∧
  unhandled w' = unhandled w.
Proof.
  intros Hnew Htoken Hjwt w'. subst w'.
  unfold connect, auth_middleware. rewrite Hnew, Htoken, Hjwt. simpl.
  unfold run_handler, on_connection, bind, hSet, expire, ret, console_log, socket_join,
    emit, emitted, recipients, hGet. simpl.
  repeat first [ rewrite lookup_insert_eq | rewrite lookup_insert_ne by done
               | progress simpl ].
  rewrite alter_insert_eq. simpl.
  assert (∀ s0 : Sock, dom (<[sid:=s0]> (sockets w)) ∖ {[sid]} = dom (sockets w)) as Hdom.
  { intros s0. rewrite dom_insert_L. apply not_elem_of_dom in Hnew. set_solver. }
  rewrite Hdom. split_and!; try done. by rewrite <- app_assoc.
Qed.

(** ** The rooms every socket keeps *)

#[local] Instance sockets_kept_po : PreOrder (@sockets_kept Store).
Proof.
  split.
  - intros w sid s Hs. exists s. by split_and!.
  - intros x y z Hxy Hyz sid s Hs.
    destruct (Hyz sid s Hs) as (s1 & Hs1 & Hu1 & Hr1).
    destruct (Hxy sid s1 Hs1) as (s0 & Hs0 & Hu0 & Hr0).
    exists s0. split_and!; [done|congruence|set_solver].
Qed.

Lemma socket_join_kept sid room :
  frames (Store := Store) sockets_kept (socket_join sid room).
Proof.
  intros w sid' s' Hs'. unfold socket_join in Hs'. simpl in Hs'.
  apply lookup_alter_Some in Hs' as [(-> & s & Hs & ->)|[_ Hs]].
  - exists s. split_and!; [done|done|]. simpl. set_solver.
  - exists s'. by split_and!.
Qed.

Lemma dispatch_sockets_kept sid uid name data :
  frames sockets_kept (dispatch env sid uid name data).
Proof.
  unfold dispatch, client_handlers, handler_of.
  repeat (case_match; simplify_eq); try (apply frames_ret; apply _);
    unfold_handlers; unfold startChatTimer;
    frame_code ltac:(apply socket_join_kept)
               ltac:(let s := fresh in let s' := fresh in let H := fresh in
                     intros s s' H; simpl in H; exists s'; by split_and!).
Qed.

Lemma close_sockets sid w : sockets (close env sid w) = delete sid (sockets w).
Proof.
  unfold close. destruct (sockets w !! sid) as [s|] eqn:Hs.
  - rewrite run_handler_ok by apply on_disconnect_ok.
    rewrite on_disconnect_unfold. cbv zeta.
    assert (socket_rooms sid (set_sockets (delete sid (sockets w)) w) = ∅) as ->.
    { unfold socket_rooms. simpl. by rewrite lookup_delete_eq. }
    by rewrite elements_empty.
  - symmetry. by apply delete_id.
Qed.

Lemma connect_sockets sid token w :
  sockets (connect env sid token w) = sockets w ∨
  ∃ uid role,
    sockets (connect env sid token w) =
    <[ sid := {| userId := uid; userRole := role; rooms := {[ user_room uid; sid ]} |} ]>
      (sockets w).
Proof.
  unfold connect. destruct (sockets w !! sid) eqn:Hs; [by left|].
  unfold auth_middleware.
  destruct (js_truthy token); simpl; [|by left].
  destruct (jwt_verify env token) as [[uid role]|e]; simpl; [|by left].
  right. exists uid, role. by rewrite alter_insert_eq.
Qed.

Lemma step_in_own_rooms a w : in_own_rooms w -> in_own_rooms (step env w a).
Proof.
  intros Hinv. destruct a as [sid token|sid name data|sid|t]; simpl.
  - destruct (connect_sockets sid token w) as [Hsame|(uid & role & Hnew)];
      intros sid' s' Hs'.
    + rewrite Hsame in Hs'. by apply Hinv.
    + rewrite Hnew in Hs'. apply lookup_insert_Some in Hs' as [[<- <-]|[_ Hs']].
      * simpl. set_solver.
      * by apply Hinv.
  - unfold inbound. destruct (sockets w !! sid) as [s0|]; [|done].
    assert (sockets_kept w (run_handler (dispatch env sid (userId s0) name data) w)) as Hk.
    { apply frames_run_handler; [apply _|apply dispatch_sockets_kept|].
      intros w0 e sid' s' Hs'. exists s'. by split_and!. }
    intros sid' s' Hs'. destruct (Hk sid' s' Hs') as (s & Hs & Hu & Hr).
    destruct (Hinv sid' s Hs) as [H1 H2]. rewrite Hu. set_solver.
  - intros sid' s' Hs'. rewrite close_sockets in Hs'.
    apply lookup_delete_Some in Hs' as [_ Hs']. by apply Hinv.
  - intros sid' s' Hs'. rewrite advance_same_sockets in Hs'. by apply Hinv.
Qed.

(** X4. Whatever happens on the server (handshakes, events, timers,
    disconnections), every connected socket is in the room named by its own
    id and in the room of its user. So an event emitted to a user's room, such
    as 'message-notification', 'incoming-call' or 'chat-request', reaches each
    of the user's connections. *)
Theorem sockets_stay_in_their_user_room l w sid s :
  in_own_rooms w ->
  sockets (run env w l) !! sid = Some s ->
  in_own_rooms (run env w l) ∧
  sid ∈ members sid (run env w l) ∧
  ∀ name payload,
    sid ∈ e_rcpt (emitted (ToRoom (user_room (userId s))) name payload (run env w l)).
Proof.
  intros Hinv Hs.
  assert (in_own_rooms (run env w l)) as Hrun.
  { clear Hs. revert w Hinv. induction l as [|a l IH]; intros w Hinv; simpl; [done|].
    apply IH. by apply step_in_own_rooms. }
  destruct (Hrun sid s Hs) as [Hown Huser].
  split_and!; [done| |].
  - apply elem_of_members. unfold socket_rooms. by rewrite Hs.
  - intros name payload. simpl. apply elem_of_members. unfold socket_rooms. by rewrite Hs.
Qed.

(** ** The events the module emits *)

Ltac frame_events tac :=
  frame_code fail
    ltac:(first [ by (exists []; rewrite app_nil_r)
                | eexists; split; [reflexivity|]; repeat constructor; tac ]).

Ltac known :=
  unfold known_event, emitted; simpl; apply (bool_decide_unpack _); vm_compute; reflexivity.

Lemma dispatch_known_events sid uid name data :
  frames (emits known_event) (dispatch env sid uid name data).
Proof.
  unfold dispatch, client_handlers, handler_of.
  repeat (case_match; simplify_eq); try (apply frames_ret; apply _);
    unfold_handlers; unfold startChatTimer; frame_events known.
Qed.

Lemma on_connection_known_events sid uid :
  frames (Store := Store) (emits known_event) (on_connection sid uid).
Proof. unfold_handlers. frame_events known. Qed.

Lemma on_disconnect_known_events sid uid :
  frames (emits known_event) (on_disconnect env sid uid).
Proof. unfold_handlers. frame_events known. Qed.

Lemma chat_timer_callback_known_events chatId :
  frames (emits known_event) (chat_timer_callback env chatId).
Proof. unfold_handlers. frame_events known. Qed.

Lemma run_handler_known_events (m : M unit) w :
  frames (emits known_event) m -> emits known_event w (run_handler m w).
Proof.
  intros Hm. apply frames_run_handler; [apply _|exact Hm|].
  intros w0 e. exists []. simpl. by rewrite app_nil_r.
Qed.

Lemma step_known_events a w : emits known_event w (step env w a).
Proof.
  destruct a as [sid token|sid name data|sid|t]; simpl.
  - unfold connect. destruct (sockets w !! sid); [reflexivity|].
    unfold auth_middleware.
    destruct (js_truthy token); simpl; [|reflexivity].
    destruct (jwt_verify env token) as [[uid role]|e]; simpl; [|reflexivity].
    match goal with
    | |- emits _ _ (run_handler ?m ?w2) => transitivity w2; [|generalize w2; intros w3]
    end.
    + exists []. simpl. by rewrite app_nil_r.
    + apply run_handler_known_events, on_connection_known_events.
  - unfold inbound. destruct (sockets w !! sid); [|reflexivity].
    apply run_handler_known_events, dispatch_known_events.
  - unfold close. destruct (sockets w !! sid); [|reflexivity].
    match goal with
    | |- emits _ _ (run_handler ?m ?w2) => transitivity w2; [|generalize w2; intros w3]
    end.
    + exists []. simpl. by rewrite app_nil_r.
    + apply run_handler_known_events, on_disconnect_known_events.
  - unfold advance. generalize (due_timers t w). intros l.
    transitivity (foldl (fire env) w l).
    + revert w. induction l as [|tm l IH]; intros w; simpl; [reflexivity|].
      etrans; [|apply IH]. unfold fire.
      match goal with
      | |- emits _ _ (run_handler ?m ?w2) => transitivity w2; [|generalize w2; intros w3]
      end.
      * exists []. simpl. by rewrite app_nil_r.
      * apply run_handler_known_events, chat_timer_callback_known_events.
    + exists []. simpl. by rewrite app_nil_r.
Qed.

(** X5. Whatever happens on the server, each event it emits carries one of the
    twenty-one names of [server_events]. In particular it never emits
    'user-left' or 'chat-time-update', two of the six events the chat page
    (ChatInterface.jsx) subscribes to. *)
Theorem server_emits_known_events_only l w :
  ∃ evs, out (run env w l) = out w ++ evs ∧
         Forall (fun e => e_name e ∈ server_events) evs ∧
         Forall (fun e => e_name e ≠ "user-left" ∧ e_name e ≠ "chat-time-update") evs.
Proof.
  assert (emits known_event w (run env w l)) as (evs & Hout & Hall).
  { revert w. induction l as [|a l IH]; intros w; simpl; [reflexivity|].
    etrans; [apply step_known_events|apply IH]. }
  exists evs. split_and!; [done|done|].
  eapply Forall_impl; [exact Hall|]. intros e He. unfold known_event in He.
  split; intros Hn; rewrite Hn in He; revert He;
    apply (bool_decide_unpack _); vm_compute; reflexivity.
Qed.

(** X6. An event a handler relays with socket.to(...) or socket.broadcast
    ('user-joined', 'typing-indicator', 'message-read', 'chat-request',
    'incoming-call', 'call-signal', 'presence-update') never comes back to
    the socket whose event is being handled, whatever rooms it is in. *)
Theorem relayed_events_skip_the_sender sid uid name data w :
  ∃ evs, out (dispatch env sid uid name data w).2 = out w ++ evs ∧
         Forall (fun e => e_name e ∈ relayed_events -> sid ∉ e_rcpt e) evs.
Proof.
  revert w. change (frames (emits (not_echoed sid)) (dispatch env sid uid name data)).
  unfold dispatch, client_handlers, handler_of.
  repeat (case_match; simplify_eq); try (apply frames_ret; apply _);
    unfold_handlers; unfold startChatTimer;
    frame_events
      ltac:(unfold not_echoed, emitted, recipients; simpl;
            first [ set_solver
                  | apply (bool_decide_unpack _); vm_compute; reflexivity ]).
Qed.

(** ** The delay of the chat timer *)

(** X7. startChatTimer sets one timer and nothing else. For a duration between 1
    and 35791 minutes it is due that many minutes later; for any other
    duration (zero, negative, or 35792 minutes and more, where the delay in
    milliseconds exceeds what a Node timeout accepts) it is due after 1 ms. *)
Theorem chat_timer_delay chatId duration w :
  timers (startChatTimer chatId duration w).2 =
  timers w ++
  [ {| t_id := next_timer w;
       t_due := now w + (if decide (1 ≤ duration ≤ 35791) then duration * 60000 else 1);
       t_chat := chatId |} ].
Proof.
  rewrite startChatTimer_spec. simpl. unfold chat_timer, node_delay.
  do 3 f_equal.
  destruct (decide (1 ≤ duration ≤ 35791)) as [H|H].
  - rewrite andb_true_intro; [lia|]. split; lia.
  - destruct (1 <=? duration * 60 * 1000) eqn:E1;
      destruct (duration * 60 * 1000 <=? 2147483647) eqn:E2; simpl; try done.
    exfalso. apply H. lia.
Qed.

(** ** Joining a chat *)

Lemma members_join_others sid room room' w :
  members room' (socket_join sid room w).2 ∖ {[ sid ]} = members room' w ∖ {[ sid ]}.
Proof.
  apply set_eq. intros x.
  rewrite !elem_of_difference, !elem_of_members, socket_rooms_join.
  destruct (decide (sid = x)) as [->|]; set_solver.
Qed.

(** X8. join-chat puts the socket into the chat room first, and that holds
    whatever follows: the presence update is always attempted; if it succeeds
    the other members of the room, and not the joining socket, are sent
    'user-joined'; if it fails the handler rejects with that error and nobody
    is told, but the socket is in the room all the same. No other socket's
    rooms change. *)
Theorem join_chat_joins_first sid uid chatId w :
  is_Some (sockets w !! sid) ->
  let room := chat_room chatId in
  let r := on_join_chat env sid uid chatId w in
  sid ∈ members room r.2 ∧
  socket_rooms sid r.2 = {[ room ]} ∪ socket_rooms sid w ∧
  (∀ sid', sid' ≠ sid -> socket_rooms sid' r.2 = socket_rooms sid' w) ∧
  calls r.2 = calls w ++ [ C_updateUserPresence chatId uid true ] ∧
  match updateUserPresence (CS env) chatId uid true (store w) with
  | (Ok _, st) =>
      r.1 = Ok tt ∧ store r.2 = st ∧
      out r.2 = out w ++
        [ {| e_target := ToRoomExcept room sid; e_rcpt := members room w ∖ {[ sid ]};
             e_name := "user-joined"; e_payload := JObj [("userId", JStr uid)];
             e_time := now w |} ]
  | (Throw e, st) => r.1 = Throw e ∧ store r.2 = st ∧ out r.2 = out w
  end.
Proof.
  intros Hs room r. subst r room.
  pose proof (socket_rooms_join sid (chat_room chatId) sid w) as Hself.
  rewrite decide_True in Hself by done. rewrite decide_True in Hself by done.
  assert (∀ sid', sid' ≠ sid ->
            socket_rooms sid' (socket_join sid (chat_room chatId) w).2 = socket_rooms sid' w)
    as Hothers.
  { intros sid' Hne. rewrite socket_rooms_join. by rewrite decide_False. }
  pose proof (members_join_others sid (chat_room chatId) (chat_room chatId) w) as Hm.
  unfold on_join_chat, bind, call, emit, emitted, recipients. simpl.
  destruct (updateUserPresence (CS env) chatId uid true (store w)) as [[[]|e] st]; simpl;
    (split; [|split; [|split; [|split; [done|]]]];
     [ apply elem_of_members; unfold socket_rooms in *; simpl in *; rewrite Hself; set_solver
     | unfold socket_rooms in *; simpl in *; exact Hself
     | intros sid' Hne; specialize (Hothers sid' Hne); unfold socket_rooms in *; simpl in *;
       exact Hothers
     | split_and!; try done ]).
  f_equal. f_equal. f_equal. unfold members in *. simpl in *. exact Hm.
Qed.

(** ** Events that are only passed on *)

#[local] Instance same_but_out_po : PreOrder (@same_but_out Store).
Proof.
  split.
  - intros w. unfold same_but_out. by split_and!.
  - intros x y z H1 H2. unfold same_but_out in *.
    destruct_and!. split_and!; congruence.
Qed.

(** X9. The typing indicator and the call signalling events (accept-call,
    reject-call, call-signal, end-call) are only passed on: handling them
    calls no collaborator and changes neither the storage, nor Redis, nor any
    room, nor any timer; a malformed payload makes the handler throw without
    having changed anything. *)
Theorem signalling_is_only_passed_on sid uid name data w :
  name ∈ [ "typing"; "accept-call"; "reject-call"; "call-signal"; "end-call" ] ->
  same_but_out w (dispatch env sid uid name data w).2.
Proof.
  intros Hname. revert w.
  change (frames same_but_out (dispatch env sid uid name data)).
  repeat (apply elem_of_cons in Hname as [->|Hname]); [..|by apply elem_of_nil in Hname];
    unfold dispatch; simpl; unfold_handlers;
    frame_code fail ltac:(unfold same_but_out; by split_and!).
Qed.

(** ** Sending a message: the whole path, and the failures *)

Lemma emitted_same t name payload w w' :
  now w' = now w -> sockets w' = sockets w ->
  emitted t name payload w' = emitted t name payload w.
Proof.
  intros Hn Hs. unfold emitted. rewrite Hn. f_equal.
  destruct t; simpl; unfold members; by rewrite ?Hs.
Qed.

Lemma notify_loop uid chatId message w ps w2 :
  is_nullish message = false ->
  now w2 = now w -> sockets w2 = sockets w ->
  let r := for_each
             (fun participant =>
                if String.eqb (p_userId participant) uid then ret tt
                else
                  bind (prop "content" message) (fun content =>
                  emit (ToRoom (user_room (p_userId participant))) "message-notification"
                       (JObj [("chatId", chatId); ("message", content);
                              ("sender", JStr uid)])))
             ps w2 in
  r.1 = Ok tt ∧ store r.2 = store w2 ∧ calls r.2 = calls w2 ∧
  out r.2 = out w2 ++ map (notification uid chatId message w) (others uid ps).
Proof.
  intros Hmsg. revert w2. induction ps as [|p ps IH]; intros w2 Hn2 Hs2 r.
  - subst r. simpl. split_and!; try done. by rewrite app_nil_r.
  - assert (Hr : r = for_each
             (fun participant =>
                if String.eqb (p_userId participant) uid then ret tt
                else
                  bind (prop "content" message) (fun content =>
                  emit (ToRoom (user_room (p_userId participant))) "message-notification"
                       (JObj [("chatId", chatId); ("message", content);
                              ("sender", JStr uid)])))
             (p :: ps) w2) by reflexivity.
    clearbody r. simpl in Hr. unfold bind at 1 in Hr.
    unfold others. rewrite filter_cons.
    destruct (String.eqb_spec (p_userId p) uid) as [Heq|Hne]; simpl in Hr.
    + rewrite decide_False by (intros Hn; by apply Hn).
      subst r. by apply IH.
    + rewrite decide_True by done.
      unfold prop at 1, bind at 1, emit at 1 in Hr. rewrite Hmsg in Hr.
      unfold ret at 1 in Hr. cbv beta iota in Hr.
      match type of Hr with
      | context [ for_each _ ps ?w3 ] =>
          destruct (IH w3) as (H1 & H2 & H3 & H4); [done|done|]
      end.
      subst r. split_and!; [exact H1|exact H2|exact H3|].
      etrans; [exact H4|]. simpl. rewrite <- app_assoc. simpl. f_equal. f_equal.
      unfold notification. by apply emitted_same.
Qed.

Lemma send_message_finish_ok uid chatId message chat w w1 st4 :
  is_nullish message = false ->
  now w1 = now w -> sockets w1 = sockets w ->
  updateLastMessage (CS env) chatId message (store w1) = (Ok tt, st4) ->
  let r := send_message_finish env uid chatId message chat w1 in
  r.1 = Ok tt ∧ store r.2 = st4 ∧
  calls r.2 = calls w1 ++ [ C_updateLastMessage chatId message ] ∧
  out r.2 = out w1 ++ map (notification uid chatId message w) (others uid (participants chat)).
Proof.
  intros Hmsg Hnow Hsock Hupd r.
  assert (Hr : r = send_message_finish env uid chatId message chat w1) by reflexivity.
  clearbody r.
  unfold send_message_finish, bind at 1, call in Hr. rewrite Hupd in Hr. simpl in Hr.
  match type of Hr with
  | context [ for_each _ _ ?w2 ] =>
      destruct (notify_loop uid chatId message w (participants chat) w2)
        as (H1 & H2 & H3 & H4); [done|done|done|]
  end.
  subst r. by split_and!.
Qed.

Lemma send_message_save_and_emit_ok uid data chat w w1 message st3 st4 :
  is_nullish message = false ->
  now w1 = now w -> sockets w1 = sockets w ->
  saveMessage (CS env) (message_input uid data) (store w1) = (Ok message, st3) ->
  updateLastMessage (CS env) (jget "chatId" data) message st3 = (Ok tt, st4) ->
  let chatId := jget "chatId" data in
  let r := send_message_save_and_emit env uid data chat w1 in
  r.1 = Ok tt ∧ store r.2 = st4 ∧
  calls r.2 = calls w1 ++ [ C_saveMessage (message_input uid data);
                            C_updateLastMessage chatId message ] ∧
  out r.2 = out w1 ++ emitted (ToRoom (chat_room chatId)) "new-message" message w ::
            map (notification uid chatId message w) (others uid (participants chat)).
Proof.
  intros Hmsg Hnow Hsock Hsave Hupd chatId r. subst chatId.
  assert (Hr : r = send_message_save_and_emit env uid data chat w1) by reflexivity.
  clearbody r.
  unfold send_message_save_and_emit, bind, call at 1, emit in Hr.
  rewrite Hsave in Hr. simpl in Hr.
  match type of Hr with
  | context [ send_message_finish env uid ?c message chat ?w2 ] =>
      destruct (send_message_finish_ok uid c message chat w w2 st4) as (H1 & H2 & H3 & H4);
        [done|done|done|done|]
  end.
  cbv zeta in *. subst r. split_and!; [done|done| |].
  - rewrite H3. simpl. by rewrite <- app_assoc.
  - rewrite H4. simpl. rewrite <- app_assoc. simpl. do 2 f_equal.
    by apply emitted_same.
Qed.

(** X10. When every step of send-message succeeds (the chat is found, the time
    check of a paid chat passes, the message is saved and the last message
    updated), the handler makes exactly these calls and emits exactly these
    events, in this order: 'new-message' with the saved message to the chat
    room, then one 'message-notification' to the user room of each participant
    other than the sender, in the order of the participant list. The sender
    gets no notification of their own message. *)
Theorem send_message_notifies_the_others sid uid data w chat st1 st2 message st3 st4 :
  is_nullish data = false ->
  getChat (CS env) (jget "chatId" data) (store w) = (Ok (Some chat), st1) ->
  (if String.eqb (chat_type chat) "private_paid"
   then checkChatTimeRemaining (CS env) (jget "chatId" data) st1 = (Ok true, st2)
   else st2 = st1) ->
  saveMessage (CS env) (message_input uid data) st2 = (Ok message, st3) ->
  is_nullish message = false ->
  updateLastMessage (CS env) (jget "chatId" data) message st3 = (Ok tt, st4) ->
  let chatId := jget "chatId" data in
  let r := on_send_message env sid uid data w in
  r.1 = Ok tt ∧ store r.2 = st4 ∧
  calls r.2 = calls w ++ C_getChat chatId :: time_check chat chatId ++
              [ C_saveMessage (message_input uid data); C_updateLastMessage chatId message ] ∧
  out r.2 = out w ++ emitted (ToRoom (chat_room chatId)) "new-message" message w ::
            map (notification uid chatId message w) (others uid (participants chat)).
Proof.
  intros Hdata Hchat Hcheck Hsave Hmsg Hupd chatId r. subst chatId.
  assert (Hr : r = on_send_message env sid uid data w) by reflexivity. clearbody r.
  unfold on_send_message, try_catch, bind at 1 2 3, destructure, call at 1, deref in Hr.
  rewrite Hdata in Hr. simpl in Hr. rewrite Hchat in Hr. simpl in Hr.
  assert (∀ w1, store w1 = st2 -> now w1 = now w -> sockets w1 = sockets w ->
            ∀ r, r = (let (r0, w') := send_message_save_and_emit env uid data chat w1 in
                      match r0 with
                      | Ok a => (Ok a, w')
                      | Throw e => emit (ToSocket sid) "error"
                                        (error_payload (err_message e)) w'
                      end) ->
            r.1 = Ok tt ∧ store r.2 = st4 ∧
            calls r.2 = calls w1 ++ [ C_saveMessage (message_input uid data);
                                      C_updateLastMessage (jget "chatId" data) message ] ∧
            out r.2 = out w1 ++
                      emitted (ToRoom (chat_room (jget "chatId" data))) "new-message" message w ::
                      map (notification uid (jget "chatId" data) message w)
                          (others uid (participants chat))) as Hrun.
  { clear r Hr. intros w1 Hst Hnow Hsock r Hr.
    destruct (send_message_save_and_emit_ok uid data chat w w1 message st3 st4)
      as (H1 & H2 & H3 & H4); [done|done|done|by rewrite Hst|done|].
    cbv zeta in *.
    destruct (send_message_save_and_emit env uid data chat w1) as [[[]|e] w2];
      simpl in *; [by subst r|discriminate]. }
  unfold time_check.
  destruct (String.eqb (chat_type chat) "private_paid").
  - unfold bind, call in Hr. simpl in Hr. rewrite Hcheck in Hr. simpl in Hr.
    apply Hrun in Hr as (H1 & H2 & H3 & H4); [|done..].
    split_and!; [done|done| |done].
    rewrite H3. simpl. by rewrite <- !app_assoc.
  - subst st2.
    apply Hrun in Hr as (H1 & H2 & H3 & H4); [|done..].
    split_and!; [done|done| |done].
    rewrite H3. simpl. by rewrite <- !app_assoc.
Qed.

(** X11. When saveMessage fails, the message reaches nobody: the handler's catch
    sends the error's message as an 'error' event to the sending socket, that
    is the only event emitted, and updateLastMessage is not called. *)
Theorem unsaved_message_reaches_nobody sid uid data w chat st1 st2 e st3 :
  is_nullish data = false ->
  getChat (CS env) (jget "chatId" data) (store w) = (Ok (Some chat), st1) ->
  (if String.eqb (chat_type chat) "private_paid"
   then checkChatTimeRemaining (CS env) (jget "chatId" data) st1 = (Ok true, st2)
   else st2 = st1) ->
  saveMessage (CS env) (message_input uid data) st2 = (Throw e, st3) ->
  let chatId := jget "chatId" data in
  let r := on_send_message env sid uid data w in
  r.1 = Ok tt ∧ store r.2 = st3 ∧
  calls r.2 = calls w ++ C_getChat chatId :: time_check chat chatId ++
              [ C_saveMessage (message_input uid data) ] ∧
  out r.2 = out w ++ [ emitted (ToSocket sid) "error" (error_payload (err_message e)) w ].
Proof.
  intros Hdata Hchat Hcheck Hsave chatId r. subst r chatId.
  unfold message_input in *.
  unfold on_send_message, send_message_save_and_emit, time_check, message_input.
  unfold try_catch, bind, destructure, call, deref.
  rewrite Hdata. simpl. rewrite Hchat. simpl.
  destruct (String.eqb (chat_type chat) "private_paid"); simpl.
  - rewrite Hcheck. simpl. rewrite Hsave. simpl.
    split_and!; try done. by rewrite <- !app_assoc.
  - subst st2. rewrite Hsave. simpl.
    split_and!; try done. by rewrite <- !app_assoc.
Qed.

(** X12. A send-message for a chat getChat does not find (it answers null) saves
    nothing: reading [chat.type] throws, and the sender alone is sent 'error'
    with the message of that TypeError. *)
Theorem message_to_unknown_chat_is_not_saved sid uid data w st1 :
  is_nullish data = false ->
  getChat (CS env) (jget "chatId" data) (store w) = (Ok None, st1) ->
  let r := on_send_message env sid uid data w in
  r.1 = Ok tt ∧ store r.2 = st1 ∧
  calls r.2 = calls w ++ [ C_getChat (jget "chatId" data) ] ∧
  out r.2 = out w ++
    [ emitted (ToSocket sid) "error"
              (error_payload "Cannot read properties of null (reading 'type')") w ].
Proof.
  intros Hdata Hchat r. subst r.
  unfold on_send_message, try_catch, bind, destructure, call, deref.
  rewrite Hdata. simpl. rewrite Hchat. simpl. by split_and!.
Qed.

(** ** Asking for a paid chat *)

(** X13. A request for a private chat with an earner whose profile is not active
    stops at the availability check: the requester alone is sent 'error'
    ('Earner is not available'), no payment session is created and the earner
    is not told. *)
Theorem inactive_earner_is_not_asked sid uid data w us earner profile st1 :
  is_nullish data = false ->
  UserService env = Some us ->
  getUser us (jget "earnerId" data) (store w) = (Ok (Some earner), st1) ->
  earnerProfile earner = Some profile ->
  isActive profile = false ->
  let r := on_request_private_chat env sid uid data w in
  r.1 = Ok tt ∧ store r.2 = st1 ∧
  calls r.2 = calls w ++ [ C_getUser (jget "earnerId" data) ] ∧
  out r.2 = out w ++
    [ emitted (ToSocket sid) "error" (error_payload "Earner is not available") w ].
Proof.
  intros Hdata Hus Huser Hprofile Hactive r. subst r.
  unfold on_request_private_chat.
  unfold try_catch, bind, destructure, resolve_UserService, call, deref, ret.
  rewrite Hdata, Hus. simpl. rewrite Huser. simpl. rewrite Hprofile. simpl.
  rewrite Hactive. simpl. by split_and!.
Qed.

(** X14. A request for a private chat with an active earner, when the payment
    service has createChatPayment and it succeeds: the price is the hourly
    rate divided by 60 times the duration; one payment session is created for
    it; the requester is sent 'payment-request' and the earner's user room
    (but never the requesting socket) 'chat-request', both with the id of that
    session, the same amount and the same duration. *)
Theorem request_private_chat_asks_both_sides
    sid uid data w us earner profile st1 f session st2 :
  is_nullish data = false ->
  UserService env = Some us ->
  getUser us (jget "earnerId" data) (store w) = (Ok (Some earner), st1) ->
  earnerProfile earner = Some profile ->
  isActive profile = true ->
  createChatPayment (PS env) = Some f ->
  f (chat_payment_request env uid data profile) st1 = (Ok session, st2) ->
  is_nullish session = false ->
  let duration := jget "duration" data in
  let amount := chat_amount env profile duration in
  let r := on_request_private_chat env sid uid data w in
  r.1 = Ok tt ∧ store r.2 = st2 ∧
  calls r.2 = calls w ++ [ C_getUser (jget "earnerId" data);
                           C_createChatPayment (chat_payment_request env uid data profile) ] ∧
  out r.2 = out w ++
    [ emitted (ToSocket sid) "payment-request"
              (JObj [("sessionId", jget "_id" session); ("amount", amount);
                     ("duration", duration); ("earnerName", u_username earner)]) w;
      emitted (ToRoomExcept (user_room (js_to_string (jget "earnerId" data))) sid)
              "chat-request"
              (JObj [("requestId", jget "_id" session); ("userId", JStr uid);
                     ("duration", duration); ("amount", amount)]) w ].
Proof.
  intros Hdata Hus Huser Hprofile Hactive Hf Hpay Hsession duration amount r.
  subst r duration amount. unfold chat_payment_request, chat_amount in *.
  unfold on_request_private_chat.
  unfold try_catch, bind, destructure, resolve_UserService, method, call, deref, prop, ret.
  rewrite Hdata, Hus. simpl. rewrite Huser. simpl. rewrite Hprofile. simpl.
  rewrite Hactive. simpl. unfold PS in Hf. unfold PS. rewrite Hf. simpl.
  rewrite Hpay. simpl. rewrite Hsession. simpl.
  split_and!; try done.
  - by rewrite <- !app_assoc.
  - by rewrite <- !app_assoc.
Qed.

(** ** The handlers that name UserService *)

(** X15. The module neither requires nor declares UserService. When nothing binds
    that name, the three handlers that use it cannot do their work, whatever
    the payload: request-private-chat answers 'error' ('UserService is not
    defined') before any call; extend-chat loads the chat and then answers the
    same 'error'; call-user rejects with the ReferenceError, emits nothing and
    leaves the server as it was. *)
Theorem handlers_fail_without_UserService sid uid data w :
  UserService env = None ->
  is_nullish data = false ->
  on_request_private_chat env sid uid data w =
    (Ok tt, set_out (out w ++ [ emitted (ToSocket sid) "error"
                                  (error_payload "UserService is not defined") w ]) w) ∧
  on_call_user env sid uid data w =
    (Throw (ReferenceError "UserService is not defined"), w) ∧
  (∀ found st1,
     getChat (CS env) (jget "chatId" data) (store w) = (Ok found, st1) ->
     let r := on_extend_chat env sid uid data w in
     r.1 = Ok tt ∧ calls r.2 = calls w ++ [ C_getChat (jget "chatId" data) ] ∧
     out r.2 = out w ++ [ emitted (ToSocket sid) "error"
                            (error_payload "UserService is not defined") w ]).
Proof.
  intros Hus Hdata. split_and!.
  - unfold on_request_private_chat.
    unfold try_catch, bind, destructure, resolve_UserService, unbound_identifier, throw.
    by rewrite Hdata, Hus.
  - unfold on_call_user.
    unfold bind, destructure, resolve_UserService, unbound_identifier, throw.
    by rewrite Hdata, Hus.
  - intros found st1 Hchat r. subst r. unfold on_extend_chat.
    unfold try_catch, bind, destructure, resolve_UserService, unbound_identifier, throw, call.
    rewrite Hdata, Hus. simpl. rewrite Hchat. simpl. by split_and!.
Qed.

(** ** Call rooms *)



(** ** Presence *)

(** X17. update-presence with a status string stores it as the user's status,
    whatever the string (it may be 'offline' while the user is connected);
    a custom status is stored only when it is truthy, a missing or empty one
    leaves the stored custom status as it was; the registered socket id is not
    touched; and every other connected socket, not the sender, is sent
    'presence-update' with the values as received. *)
Theorem update_presence_stores_and_broadcasts sid uid data status w :
  jget "status" data = JStr status ->
  (js_truthy (jget "customStatus" data) = true ->
   ∃ custom, jget "customStatus" data = JStr custom) ->
  let customStatus := jget "customStatus" data in
  let r := on_update_presence sid uid data w in
  r.1 = Ok tt ∧
  hGet (user_room uid) "status" r.2 = Some status ∧
  hGet (user_room uid) "customStatus" r.2 =
    (if js_truthy customStatus then Some (js_to_string customStatus)
     else hGet (user_room uid) "customStatus" w) ∧
  hGet (user_room uid) "socketId" r.2 = hGet (user_room uid) "socketId" w ∧
  out r.2 = out w ++
    [ {| e_target := BroadcastExcept sid; e_rcpt := dom (sockets w) ∖ {[ sid ]};
         e_name := "presence-update";
         e_payload := JObj [("userId", JStr uid); ("status", JStr status);
                            ("customStatus", customStatus)];
         e_time := now w |} ].
Proof.
  intros Hstatus _ customStatus r. subst customStatus.
  assert (is_nullish data = false) as Hdata.
  { destruct data; simpl in *; done. }
  set (w1 := (hSet (user_room uid) "status" status w).2).
  set (w2 := if js_truthy (jget "customStatus" data)
             then (hSet (user_room uid) "customStatus"
                        (js_to_string (jget "customStatus" data)) w1).2
             else w1).
  assert (Hr : r = (Ok tt,
                    (emit (BroadcastExcept sid) "presence-update"
                          (JObj [("userId", JStr uid); ("status", JStr status);
                                 ("customStatus", jget "customStatus" data)]) w2).2)).
  { subst r w2 w1. unfold on_update_presence, bind, destructure.
    rewrite Hdata. unfold ret. rewrite Hstatus.
    destruct (js_truthy (jget "customStatus" data)); reflexivity. }
  clearbody r. subst r.
  assert (out w2 = out w ∧ now w2 = now w ∧ sockets w2 = sockets w) as (Ho & Hn & Hs).
  { subst w2 w1. destruct (js_truthy (jget "customStatus" data)); by split_and!. }
  assert (hGet (user_room uid) "status" w2 = Some status ∧
          hGet (user_room uid) "customStatus" w2 =
            (if js_truthy (jget "customStatus" data)
             then Some (js_to_string (jget "customStatus" data))
             else hGet (user_room uid) "customStatus" w) ∧
          hGet (user_room uid) "socketId" w2 = hGet (user_room uid) "socketId" w)
    as (G1 & G2 & G3).
  { subst w2 w1. destruct (js_truthy (jget "customStatus" data)); rewrite !hGet_hSet;
      repeat (destruct (decide _) as [[? ?]|?]; simplify_eq); try done; naive_solver. }
  cbn [fst snd]. rewrite !hGet_emit.
  split_and!; [done|exact G1|exact G2|exact G3|].
  unfold emit, emitted, recipients. cbn [snd]. unfold set_out. cbn [out].
  by rewrite Ho, Hn, Hs.
Qed.

End Properties.

(** * The claims on concrete scenarios *)

Module Scenario.

Import Fixture.

(** ** A paid chat without time left (C1) *)

Lemma send_message_paid_without_time_witness :
  is_nullish (message_to "p1") = false ∧
  getChat (CS (mk_env no_time)) (jget "chatId" (message_to "p1"))
          (store (gathered no_time)) = (Ok (Some paid_chat), []) ∧
  chat_type paid_chat = "private_paid" ∧
  checkChatTimeRemaining (CS (mk_env no_time)) (jget "chatId" (message_to "p1")) [] =
    (Ok false, []) ∧
  out (on_send_message (mk_env no_time) "s1" "alice" (message_to "p1")
                       (gathered no_time)).2 =
    out (gathered no_time) ++
    [ emitted (ToSocket "s1") "chat-error" (error_payload "Chat time expired")
              (gathered no_time) ] ∧
  store (on_send_message (mk_env no_time) "s1" "alice" (message_to "p1")
                         (gathered no_time)).2 = [].
Proof.
  assert (H1 : is_nullish (message_to "p1") = false) by reflexivity.
  assert (H2 : getChat (CS (mk_env no_time)) (jget "chatId" (message_to "p1"))
                       (store (gathered no_time)) = (Ok (Some paid_chat), []))
    by (vm_compute; reflexivity).
  assert (H3 : chat_type paid_chat = "private_paid") by reflexivity.
  assert (H4 : checkChatTimeRemaining (CS (mk_env no_time))
                 (jget "chatId" (message_to "p1")) [] = (Ok false, []))
    by reflexivity.
  destruct (send_message_paid_without_time (mk_env no_time) "s1" "alice"
              (message_to "p1") (gathered no_time) paid_chat [] H1 H2 H3) as [_ H].
  destruct (H [] H4) as (_ & Hout & _ & Hstore).
  split_and!; [exact H1|exact H2|exact H3|exact H4|exact Hout|exact Hstore].
Defined.

(** ** Extending a chat (C2) *)


(** ** The chat timer (C3) *)



(** ** A disconnect after a reconnect (C4) *)

(** Alice connects twice; the second socket is the one registered in Redis.
    When the first socket disconnects, Alice is marked offline although the
    registered socket is still connected. *)
Lemma stale_disconnect_counterexample :
  hGet "user:alice" "socketId" reconnected = Some "s9" ∧
  hGet "user:alice" "status" reconnected = Some "online" ∧
  is_Some (sockets first_socket_closed !! "s9") ∧
  hGet "user:alice" "socketId" first_socket_closed = Some "s9" ∧
  hGet "user:alice" "status" first_socket_closed = Some "offline".
Proof. vm_compute. split_and!; try reflexivity. eexists; reflexivity. Qed.

(** ** A disconnect during a call (C5) *)

(** Alice's connection drops: the only event is the 'user-status' broadcast;
    Bob, still in the call room, gets no 'call-ended'. *)
Lemma disconnect_in_call_counterexample :
  elements (members "c1" in_call) = ["s1"; "s2"] ∧
  elements (members "c1" hung_up) = ["s2"] ∧
  names (new_events in_call hung_up) = ["user-status"] ∧
  "call-ended" ∉ names (out hung_up).
Proof.
  vm_compute. split_and!; try reflexivity.
  intros H. repeat (apply elem_of_cons in H as [H|H]; [discriminate|]).
  by apply elem_of_nil in H.
Qed.

Lemma disconnect_leaves_rooms_witness :
  "chat:p1" ≠ "s1" ∧
  "s1" ∈ members "chat:p1" (gathered as_written) ∧
  "s1" ∉ members "chat:p1"
         (on_disconnect (mk_env as_written) "s1" "alice" (gathered as_written)).2.
Proof.
  assert (H1 : "chat:p1" ≠ "s1") by discriminate.
  destruct (disconnect_leaves_rooms_and_reports_offline (mk_env as_written) "s1" "alice"
              (gathered as_written)) as (_ & H & _).
  split_and!; [exact H1| |exact (H "chat:p1" H1)].
  by_compute.
Defined.

(** ** Calling a user who is offline (C6) *)

(** Dave has no connection and no presence record. With every collaborator in
    place, Alice's call is not turned down: the invitation is emitted (to
    nobody) and Alice is told the call is initiated. With the module as
    written, nothing is emitted at all. *)
Lemma call_offline_user_counterexample :
  hGet "user:dave" "status" (gathered completed) = None ∧
  members "user:dave" (gathered completed) = ∅ ∧
  names (new_events (gathered completed) (called completed)) =
    ["incoming-call"; "call-initiated"] ∧
  ("error" ∉ names (new_events (gathered completed) (called completed))) ∧
  new_events (gathered as_written) (called as_written) = [] ∧
  unhandled (called as_written) = [ReferenceError "UserService is not defined"].
Proof.
  vm_compute. split_and!; try reflexivity.
  intros H. repeat (apply elem_of_cons in H as [H|H]; [discriminate|]).
  by apply elem_of_nil in H.
Qed.

Lemma call_user_checks_the_service_only_witness :
  is_nullish call_bob_video = false ∧
  UserService (mk_env completed) = Some {| getUser := fun u => ok (user_of u) |} ∧
  out (on_call_user (mk_env completed) "s1" "alice" call_bob_video (gathered completed)).2 =
    out (gathered completed) ++
    [ emitted (ToSocket "s1") "error" (error_payload "This service is not available")
              (gathered completed) ].
Proof.
  assert (H1 : is_nullish call_bob_video = false) by reflexivity.
  assert (H2 : UserService (mk_env completed) =
               Some {| getUser := fun u => ok (user_of u) |})
    by reflexivity.
  assert (H3 : getUser {| getUser := fun u => ok (user_of u) |}
                 (jget "userId" call_bob_video) (store (gathered completed)) =
               (Ok (user_of (JStr "bob")), store (gathered completed)))
    by reflexivity.
  destruct (call_user_checks_the_service_only (mk_env completed) "s1" "alice"
              call_bob_video (gathered completed) _ _ _ H1 H2 H3
              ltac:(intros _; eexists; reflexivity))
    as (_ & _ & _ & _ & _ & Hout).
  split_and!; [exact H1|exact H2|exact Hout].
Defined.

(** ** Sending to a room one is not in (C7) *)

(** Carol is connected, has joined nothing and is no participant of f1. Her
    message to f1 is saved and emitted to the room; she gets no error. *)
Lemma send_without_membership_counterexample :
  ("s3" ∉ members "chat:f1" (gathered as_written)) ∧
  store (gathered as_written) = [] ∧
  store sent_by_carol = [message_input "carol" (message_to "f1")] ∧
  map (fun e => (e_target e, elements (e_rcpt e), e_name e))
      (new_events (gathered as_written) sent_by_carol) =
    [ (ToRoom "chat:f1", ["s1"; "s2"], "new-message");
      (ToRoom "user:alice", ["s1"], "message-notification");
      (ToRoom "user:bob", ["s2"], "message-notification") ].
Proof.
  split_and!; try (vm_compute; reflexivity).
  by_compute.
Qed.

Lemma send_message_ignores_membership_witness :
  ("s3" ∉ members (chat_room (jget "chatId" (message_to "f1"))) (gathered as_written)) ∧
  is_nullish (message_to "f1") = false ∧
  (∃ rest, out (on_send_message (mk_env as_written) "s3" "carol" (message_to "f1")
                                (gathered as_written)).2 =
           out (gathered as_written) ++
           emitted (ToRoom "chat:f1") "new-message"
                   (message_input "carol" (message_to "f1")) (gathered as_written) :: rest).
Proof.
  assert (H1 : "s3" ∉ members (chat_room (jget "chatId" (message_to "f1")))
                              (gathered as_written))
    by by_compute.
  assert (H2 : is_nullish (message_to "f1") = false) by reflexivity.
  assert (H3 : getChat (CS (mk_env as_written)) (jget "chatId" (message_to "f1"))
                       (store (gathered as_written)) = (Ok (Some free_chat), []))
    by (vm_compute; reflexivity).
  destruct (send_message_ignores_membership (mk_env as_written) "s3" "carol"
              (message_to "f1") (gathered as_written) free_chat [] []
              (message_input "carol" (message_to "f1"))
              [message_input "carol" (message_to "f1")] H1 H2 H3 eq_refl eq_refl)
    as (_ & _ & Hout).
  split_and!; [exact H1|exact H2|exact Hout].
Defined.

(** ** A read receipt when storage fails (C8) *)

Lemma read_receipt_failure_witness :
  is_Some (sockets (gathered storage_down) !! "s1") ∧
  is_nullish receipt = false ∧
  out (inbound (mk_env storage_down) "s1" "read-receipt" receipt (gathered storage_down)) =
    out (gathered storage_down) ∧
  unhandled (inbound (mk_env storage_down) "s1" "read-receipt" receipt
                     (gathered storage_down)) =
    unhandled (gathered storage_down) ++ [Error "storage unreachable"].
Proof.
  assert (H1 : ∃ s, sockets (gathered storage_down) !! "s1" = Some s ∧ userId s = "alice")
    by (eexists; split; vm_compute; reflexivity).
  destruct H1 as (s & H1 & Hs).
  assert (H2 : is_nullish receipt = false) by reflexivity.
  assert (H3 : markAsRead (CS (mk_env storage_down)) (jget "messageId" receipt) (userId s)
                 (store (gathered storage_down)) =
               (Throw (Error "storage unreachable"), store (gathered storage_down)))
    by reflexivity.
  destruct (read_receipt_failure_is_not_reported (mk_env storage_down) "s1" receipt
              (gathered storage_down) s _ _ H1 H2 H3) as (_ & Hout & Hun).
  split_and!; [by exists s|exact H2|exact Hout|exact Hun].
Defined.

(** ** Accepting a chat request (C9) *)

Lemma accept_chat_request_timer_is_lost_witness :
  is_nullish accept_request = false ∧
  acceptPayment (PS (mk_env completed)) = Some (fun _ => ok tt) ∧
  (on_accept_chat_request (mk_env completed) "s2" "bob" accept_request
                          (gathered completed)).1 = Ok tt ∧
  chat_timer (JStr "p1") 2 (gathered completed) ∈
    timers (run (mk_env completed)
                (on_accept_chat_request (mk_env completed) "s2" "bob" accept_request
                                        (gathered completed)).2
                [ Inbound "s1" "extend-chat" extend_request; Close "s2"; Close "s1" ]).
Proof.
  assert (H1 : is_nullish accept_request = false) by reflexivity.
  assert (H2 : acceptPayment (PS (mk_env completed)) = Some (fun _ => ok tt))
    by reflexivity.
  assert (H3 : createPrivateChat (CS (mk_env completed)) (jget "requestId" accept_request)
                 (store (gathered completed)) =
               (Ok (Some paid_chat), store (gathered completed)))
    by reflexivity.
  destruct (accept_chat_request_timer_is_lost (mk_env completed) "s2" "bob" accept_request
              (gathered completed) _ _ paid_chat _ _ H1 H2 eq_refl H3 eq_refl)
    as (_ & Hok & _ & Hstays).
  split_and!; [exact H1|exact H2|exact Hok|].
  apply Hstays. repeat constructor.
Defined.

(** With the module as written, the request fails on its first call, before
    any timer is set; with every collaborator in place, the timer is set and
    the error is the missing chatTimers. *)
Example accept_chat_request_as_written :
  timers (accepted as_written) = [] ∧
  map (fun e => (e_target e, e_name e, e_payload e))
      (new_events (gathered as_written) (accepted as_written)) =
    [ (ToSocket "s2", "error",
       error_payload "PaymentService.acceptPayment is not a function") ] ∧
  deadlines (accepted completed) = [121000] ∧
  map (fun e => (e_target e, e_name e))
      (new_events (gathered completed) (accepted completed)) =
    [ (ToRoom "chat:p1", "chat-started"); (ToSocket "s2", "error") ].
Proof. vm_compute. split_and!; reflexivity. Qed.

(** ** Leaving a chat (C10) *)

Lemma leave_chat_is_not_handled_witness :
  "s1" ∈ members (chat_room (JStr "f1")) (gathered as_written) ∧
  Forall (fun a => a ≠ Close "s1")
         [ Inbound "s2" "send-message" (message_to "f1"); Close "s2" ] ∧
  "s1" ∈ members (chat_room (JStr "f1"))
         (run (mk_env as_written) (gathered as_written)
              [ Inbound "s1" "leave-chat" (JStr "f1");
                Inbound "s2" "send-message" (message_to "f1"); Close "s2" ]).
Proof.
  assert (H1 : "s1" ∈ members (chat_room (JStr "f1")) (gathered as_written))
    by by_compute.
  assert (H2 : Forall (fun a => a ≠ Close "s1")
                 [ Inbound "s2" "send-message" (message_to "f1"); Close "s2" ])
    by (repeat constructor; discriminate).
  destruct (leave_chat_is_not_handled (mk_env as_written) "s1" (JStr "f1") _
              (gathered as_written) H1 H2) as (_ & _ & Hstill & _).
  split_and!; [exact H1|exact H2|exact Hstill].
Defined.

End Scenario.

(** * Properties of the PaymentService class *)

Section PaymentProperties.

Context (gw : Gateways).
Implicit Types (L : Ledger) (wallet : Wallet).

#[local] Instance payout_le_total : Total payout_le.
Proof. intros a b. unfold payout_le. lia. Qed.

#[local] Instance payout_le_trans : Transitive payout_le.
Proof. intros a b c. unfold payout_le. lia. Qed.

(** Running a method on a ledger. *)
Ltac run_pay :=
  unfold findById, user_save, Withdrawal_create, withdrawal_save, initiatePayout,
    PaymentIntent_create, request, lift, field, first_of, Date_now in *;
  unfold mbind, Pay_bind, mret, Pay_ret, raise in *;
  simpl in *.

(** ** Withdrawals that are refused *)

(** X18. A withdrawal below the minimum (500 for the method 'bank', 10 for any
    other method, a missing one included) is refused before the user is even
    looked up: the method throws 'Withdrawal processing failed: Minimum
    withdrawal amount is <minimum>' and the ledger is untouched. *)
Theorem withdrawal_below_minimum_is_refused userId amount method details L :
  amount < minWithdrawal method ->
  processWithdrawal userId amount method details L =
  (Throw (Error ("Withdrawal processing failed: " +:+
                 ("Minimum withdrawal amount is " +:+ pretty (minWithdrawal method)))),
   L) ∧
  minWithdrawal (JStr "bank") = 500 ∧
  (method ≠ JStr "bank" -> minWithdrawal method = 10).
Proof.
  intros Hlow. split_and!.
  - unfold processWithdrawal, rethrow, raise.
    apply Z.ltb_lt in Hlow. by rewrite Hlow.
  - done.
  - intros Hne. unfold minWithdrawal, is_string.
    destruct method as [| | | |s|]; try done.
    destruct (String.eqb_spec s "bank"); [|done]. by subst.
Qed.


(** X19. A withdrawal of at least the minimum is refused when the user's balance
    is smaller than the amount ('Insufficient balance') or when there is no
    such user (the TypeError of reading [user.wallet]); either way the error is
    wrapped as 'Withdrawal processing failed: ...', no withdrawal is recorded,
    no payout is scheduled and no wallet changes. *)
Theorem withdrawal_without_funds_is_refused userId amount method details L :
  minWithdrawal method ≤ amount ->
  match users L !! userId with
  | Some wallet => balance wallet < amount
  | None => True
  end ->
  processWithdrawal userId amount method details L =
  (Throw (Error ("Withdrawal processing failed: " +:+
                 match users L !! userId with
                 | Some _ => "Insufficient balance"
                 | None => "Cannot read properties of null (reading 'wallet')"
                 end)),
   L).
Proof.
  intros Hmin Hfunds. unfold processWithdrawal, rethrow. run_pay.
  apply Z.ltb_ge in Hmin. rewrite Hmin.
  destruct (users L !! userId) as [wallet|]; [|done].
  apply Z.ltb_lt in Hfunds. by rewrite Hfunds.
Qed.

(** ** Withdrawals that are accepted *)



(** ** The payout *)



(** ** Funds over time *)

#[local] Instance funds_kept_po : PreOrder funds_kept.
Proof.
  split.
  - intros L u wallet Hu. exists wallet. by split_and!.
  - intros x y z Hxy Hyz u wallet Hu.
    destruct (Hxy u wallet Hu) as (w1 & Hu1 & Hf1 & Hb1).
    destruct (Hyz u w1 Hu1) as (w2 & Hu2 & Hf2 & Hb2).
    exists w2. split_and!; [done|congruence|auto].
Qed.









(** ** Topping up the wallet *)

Lemma is_string_ne (v : JVal) (s : string) : v ≠ JStr s -> is_string v s = false.
Proof.
  intros Hne. destruct v as [| | | |s'|]; simpl; try done.
  destruct (String.eqb_spec s' s); [|done]. by subst.
Qed.

Lemma is_string_eq (v : JVal) (s : string) : is_string v s = true ↔ v = JStr s.
Proof.
  split.
  - destruct v as [| | | |s'|]; simpl; try done.
    destruct (String.eqb_spec s' s); [|done]. by subst.
  - intros ->. simpl. apply String.eqb_refl.
Qed.

(** X23. A top-up by a method other than 'razorpay' and 'paypal' (a missing one
    included) throws 'Wallet top-up failed: Unsupported payment method'
    without sending anything to a gateway and without storing a payment
    intent: the ledger is untouched. *)
Theorem top_up_by_unknown_method_does_nothing userId amount currency method L :
  method ≠ JStr "razorpay" -> method ≠ JStr "paypal" ->
  createWalletTopUp gw userId amount currency method L =
  (Throw (Error "Wallet top-up failed: Unsupported payment method"), L).
Proof.
  intros H1 H2. unfold createWalletTopUp, rethrow. run_pay.
  by rewrite (is_string_ne _ _ H1), (is_string_ne _ _ H2).
Qed.

(** X24. A top-up that fails, for whatever reason, stores no payment intent (and
    changes no wallet and no withdrawal), and what it throws is an Error whose
    message starts with 'Wallet top-up failed: '. When it is Razorpay that
    refuses the order, the message nests the two prefixes: 'Wallet top-up
    failed: Razorpay order creation failed: <the gateway's message>'. *)
Theorem failed_top_up_stores_no_intent userId amount currency method L e :
  (createWalletTopUp gw userId amount currency method L).1 = Throw e ->
  let L' := (createWalletTopUp gw userId amount currency method L).2 in
  (∃ msg, e = Error ("Wallet top-up failed: " +:+ msg)) ∧
  intents L' = intents L ∧ users L' = users L ∧ withdrawals L' = withdrawals L ∧
  payouts L' = payouts L ∧
  (∀ e0 options,
     method = JStr "razorpay" -> gateway L' = gateway L ++ [ G_orders_create options ] ->
     orders_create gw options = Throw e0 ->
     e = Error ("Wallet top-up failed: " +:+
                ("Razorpay order creation failed: " +:+ err_message e0))).
Proof.
  intros Hfail L'. subst L'. revert Hfail.
  unfold createWalletTopUp, createRazorpayOrder, createPayPalOrder, rethrow. run_pay.
  destruct (is_string method "razorpay") eqn:Hrz; simpl.
  - match goal with
    | |- context [ orders_create gw ?o ] =>
        destruct (orders_create gw o) as [order|e1] eqn:Ho1; simpl
    end.
    + destruct (is_nullish order) eqn:Hn; simpl; intros Hfail; simplify_eq.
      split_and!; [eexists; reflexivity|done..|].
      intros e0 options _ Hg Ho. apply app_inv_head in Hg. simplify_eq. congruence.
    + intros Hfail. simplify_eq.
      split_and!; [eexists; reflexivity|done..|].
      intros e0 options _ Hg Ho. apply app_inv_head in Hg. simplify_eq. congruence.
  - assert (method ≠ JStr "razorpay") as Hne.
    { intros ->. simpl in Hrz. done. }
    repeat (case_match; simplify_eq; simpl in *); intros Hfail; simplify_eq;
      (split_and!; [eexists; reflexivity|done..|]); by intros e0 options Hm.
Qed.

(** X25. A top-up through Razorpay whose order is created: Razorpay is asked
    once, for a hundred times the amount (paise) in the given currency, or
    in INR when none is given, with the receipt 'wallet_<user>_<time>'; one
    payment intent is stored, pending, for the amount as requested; no wallet
    is credited; the answer carries the id of the intent and the order as
    Razorpay described it. *)
Theorem razorpay_top_up_stores_a_pending_intent userId amount currency L order :
  let orderData :=
    {| od_amount := amount; od_currency := currency;
       od_receipt := JStr ("wallet_" +:+ userId +:+ "_" +:+ pretty (clock L));
       od_userId := JStr userId; od_chatId := JUndef; od_earnerId := JUndef;
       od_earnerName := JUndef |} in
  orders_create gw (razorpay_options orderData) = Ok order ->
  is_nullish order = false ->
  let paymentData :=
    JObj [("success", JBool true); ("orderId", jget "id" order);
          ("amount", jget "amount" order); ("currency", jget "currency" order);
          ("key", RAZORPAY_KEY_ID gw)] in
  let r := createWalletTopUp gw userId amount currency (JStr "razorpay") L in
  r.1 = Ok (JObj [("success", JBool true);
                  ("paymentIntentId", JNum (Z.of_nat (length (intents L))));
                  ("orderId", jget "id" order); ("amount", jget "amount" order);
                  ("currency", jget "currency" order); ("key", RAZORPAY_KEY_ID gw)]) ∧
  gateway r.2 = gateway L ++ [ G_orders_create (razorpay_options orderData) ] ∧
  jget "amount" (razorpay_options orderData) = JNum (amount * 100) ∧
  jget "currency" (razorpay_options orderData) =
    (if js_truthy currency then currency else JStr "INR") ∧
  intents r.2 = intents L ++
    [ {| pi_userId := userId; pi_amount := amount; pi_currency := currency;
         pi_method := JStr "razorpay"; pi_status := "pending";
         pi_paymentData := paymentData; pi_type := "wallet_topup" |} ] ∧
  users r.2 = users L.
Proof.
  intros orderData Horder Hobj paymentData r. subst r paymentData orderData.
  unfold createWalletTopUp, createRazorpayOrder, rethrow. run_pay.
  rewrite Horder. simpl. rewrite Hobj. simpl. by split_and!.
Qed.

(** ** PayPal *)

Lemma find_rel_none rel links :
  Forall (fun link => is_nullish link = false ∧ is_string (jget "rel" link) rel = false)
         links ->
  find_rel rel links = Ok None.
Proof.
  induction 1 as [|link links [Hn Hr] _ IH]; simpl; [done|].
  by rewrite Hn, Hr.
Qed.

(** X26. A PayPal order whose answer carries no link with rel 'approve' is
    reported as a failure, 'PayPal order creation failed: Cannot read
    properties of undefined (reading 'href')', although the request was sent
    and PayPal created the order. *)
Theorem paypal_order_without_approve_link_fails orderData L order :
  execute_create gw (paypal_request gw orderData) = Ok order ->
  Forall (fun link => is_nullish link = false ∧
                      is_string (jget "rel" link) "approve" = false) (ppo_links order) ->
  createPayPalOrder gw orderData L =
  (Throw (Error ("PayPal order creation failed: " +:+
                 "Cannot read properties of undefined (reading 'href')")),
   set_gateway (gateway L ++ [ G_paypal_create (paypal_request gw orderData) ]) L).
Proof.
  intros Horder Hlinks. unfold createPayPalOrder, rethrow. run_pay.
  rewrite Horder. simpl. by rewrite (find_rel_none _ _ Hlinks).
Qed.

(** X27. capturePayPalOrder asks PayPal once. A capture whose status is anything
    but 'COMPLETED' is answered with success false and 'Payment not
    completed', never with an exception; a capture that is 'COMPLETED' but
    lists no purchase unit makes the method throw 'PayPal capture failed:
    Cannot read properties of undefined (reading 'payments')'. *)
Theorem paypal_capture_outcomes orderId L capture :
  execute_capture gw orderId = Ok capture ->
  let r := capturePayPalOrder gw orderId L in
  r.2 = set_gateway (gateway L ++ [ G_paypal_capture orderId ]) L ∧
  (cap_status capture ≠ JStr "COMPLETED" ->
   r.1 = Ok (JObj [("success", JBool false); ("message", JStr "Payment not completed")])) ∧
  (cap_status capture = JStr "COMPLETED" -> cap_purchase_units capture = [] ->
   r.1 = Throw (Error ("PayPal capture failed: " +:+
                       "Cannot read properties of undefined (reading 'payments')"))).
Proof.
  intros Hcap r. subst r. unfold capturePayPalOrder, rethrow. run_pay.
  rewrite Hcap. simpl. split_and!.
  - repeat (case_match; simplify_eq; simpl in *); done.
  - intros Hne. by rewrite (is_string_ne _ _ Hne).
  - intros Hc Hnil. rewrite Hc, Hnil. done.
Qed.

(** ** Razorpay signatures *)

(** X28. verifyRazorpayPayment accepts a payment exactly when the signature is
    the string that HMAC-SHA256 under the key secret gives for the order id,
    a bar and the payment id, in that order; a signature that is not a string
    is never accepted. The two flags of the answer always agree, and nothing
    is written. *)
Theorem razorpay_signature_is_checked paymentId orderId signature L generated :
  hmac_sha256_hex gw (RAZORPAY_KEY_SECRET gw)
                  (js_to_string orderId +:+ "|" +:+ js_to_string paymentId) = Ok generated ->
  ∃ verified : bool,
    verifyRazorpayPayment gw paymentId orderId signature L =
    (Ok (JObj [("success", JBool verified); ("verified", JBool verified)]), L) ∧
    (verified = true ↔ signature = JStr generated).
Proof.
  intros Hmac. unfold verifyRazorpayPayment, rethrow. run_pay. rewrite Hmac. simpl.
  destruct (is_string signature generated) eqn:Hs.
  - exists true. split; [done|]. split; [intros _; by apply is_string_eq|done].
  - exists false. split; [done|]. split; [done|].
    intros Heq. apply is_string_eq in Heq. congruence.
Qed.

End PaymentProperties.

(** * Properties of the chat page *)

Section ClientProperties.

(** ** Who is typing *)

Lemma spread_set_from (seen l : list string) :
  NoDup seen ->
  let r := foldl (fun seen x => if decide (x ∈ seen) then seen else seen ++ [x]) seen l in
  NoDup r ∧ ∀ x, x ∈ r ↔ x ∈ seen ∨ x ∈ l.
Proof.
  revert seen. induction l as [|a l IH]; intros seen Hnd; simpl.
  - split; [done|]. intros x. rewrite elem_of_nil. tauto.
  - destruct (decide (a ∈ seen)) as [Hin|Hout].
    + destruct (IH seen Hnd) as [H1 H2]. split; [done|].
      intros x. rewrite H2, elem_of_cons. intuition congruence.
    + destruct (IH (seen ++ [a])) as [H1 H2].
      { apply NoDup_app. split_and!; [done| |apply NoDup_singleton].
        intros x Hx Hx'. apply list_elem_of_singleton in Hx'. by subst. }
      split; [done|].
      intros x. rewrite H2, elem_of_app, !elem_of_cons, elem_of_nil. tauto.
Qed.

Lemma handleTyping_spec userId isTyping prev :
  NoDup prev ->
  NoDup (handleTyping userId isTyping prev) ∧
  ∀ x, x ∈ handleTyping userId isTyping prev ↔
       if js_truthy isTyping then x = userId ∨ x ∈ prev else x ≠ userId ∧ x ∈ prev.
Proof.
  intros Hnd. unfold handleTyping. destruct (js_truthy isTyping).
  - destruct (spread_set_from [] (prev ++ [userId])) as [H1 H2]; [apply NoDup_nil_2|].
    split; [exact H1|]. intros x. unfold spread_set.
    rewrite H2, elem_of_app, elem_of_cons, !elem_of_nil. tauto.
  - split; [by apply NoDup_filter|]. intros x. by rewrite list_elem_of_filter.
Qed.

Lemma typingUsers_snoc events u v :
  typingUsers (events ++ [(u, v)]) = handleTyping u v (typingUsers events).
Proof. unfold typingUsers. by rewrite foldl_app. Qed.

Lemma is_typing_snoc user events u v :
  is_typing user (events ++ [(u, v)]) =
  if String.eqb u user then js_truthy v else is_typing user events.
Proof. unfold is_typing. by rewrite foldl_app. Qed.

(** X29. After any sequence of 'typing-indicator' events, the list the page keeps
    (whose length it shows as 'N users typing...') names no user twice, and
    names exactly the users whose latest event said they were typing. *)
Theorem typing_users_are_those_still_typing events :
  NoDup (typingUsers events) ∧
  ∀ user, user ∈ typingUsers events ↔ is_typing user events = true.
Proof.
  induction events as [|[u v] events [IHnd IHin]] using rev_ind.
  - split; [apply NoDup_nil_2|]. intros user. simpl. rewrite elem_of_nil.
    unfold is_typing. simpl. intuition congruence.
  - rewrite typingUsers_snoc.
    destruct (handleTyping_spec u v _ IHnd) as [H1 H2].
    split; [exact H1|]. intros user. rewrite H2, is_typing_snoc.
    destruct (String.eqb_spec u user) as [->|Hne].
    + destruct (js_truthy v); intuition congruence.
    + rewrite <- IHin. destruct (js_truthy v); intuition congruence.
Qed.

(** ** The remaining time *)






End ClientProperties.

(** * The further properties on concrete scenarios *)

Module Checks.

Import Fixture Cases.

(** ** The handshake *)

Lemma refused_handshake_witness :
  (js_truthy (JNum 7) = false ∨ ∃ e, jwt_verify (mk_env as_written) (JNum 7) = Throw e) ∧
  connect (mk_env as_written) "s4" (JNum 7) (gathered as_written) = gathered as_written.
Proof.
  assert (H : js_truthy (JNum 7) = false ∨
              ∃ e, jwt_verify (mk_env as_written) (JNum 7) = Throw e)
    by (right; eexists; reflexivity).
  split; [exact H|].
  apply (refused_handshake_leaves_no_trace (mk_env as_written) "s4" (JNum 7)
           (gathered as_written) H).
Defined.

Lemma accepted_handshake_witness :
  sockets (gathered as_written) !! "s4" = None ∧
  js_truthy (JStr "dave") = true ∧
  jwt_verify (mk_env as_written) (JStr "dave") = Ok ("dave", JStr "user") ∧
  hGet (user_room "dave") "socketId"
       (connect (mk_env as_written) "s4" (JStr "dave") (gathered as_written)) = Some "s4" ∧
  hGet (user_room "dave") "status"
       (connect (mk_env as_written) "s4" (JStr "dave") (gathered as_written)) = Some "online".
Proof.
  assert (H1 : sockets (gathered as_written) !! "s4" = None) by (vm_compute; reflexivity).
  destruct (accepted_handshake_registers_presence (mk_env as_written) "s4" (JStr "dave")
              "dave" (JStr "user") (gathered as_written) H1 eq_refl eq_refl)
    as (Hid & Hstatus & _).
  split_and!; [exact H1|reflexivity|reflexivity|exact Hid|exact Hstatus].
Defined.

(** ** Rooms *)

Lemma sockets_stay_in_their_user_room_witness :
  in_own_rooms w0 ∧
  is_Some (sockets (run (mk_env as_written) w0 a_day) !! "s5") ∧
  "s5" ∈ members (user_room "bob") (run (mk_env as_written) w0 a_day).
Proof.
  assert (H1 : in_own_rooms w0).
  { intros sid s Hs. vm_compute in Hs. discriminate. }
  assert (H2 : ∃ s, sockets (run (mk_env as_written) w0 a_day) !! "s5" = Some s ∧
                    userId s = "bob")
    by (eexists; split; vm_compute; reflexivity).
  destruct H2 as (s & H2 & Hs).
  destruct (sockets_stay_in_their_user_room (mk_env as_written) a_day w0 "s5" s H1 H2)
    as (_ & _ & Hroom).
  specialize (Hroom "message-notification" JUndef). rewrite Hs in Hroom.
  split_and!; [exact H1|by exists s|exact Hroom].
Defined.

Lemma join_chat_joins_first_witness :
  is_Some (sockets (gathered as_written) !! "s3") ∧
  "s3" ∈ members (chat_room (JStr "f1"))
         (on_join_chat (mk_env as_written) "s3" "carol" (JStr "f1") (gathered as_written)).2.
Proof.
  assert (H1 : is_Some (sockets (gathered as_written) !! "s3"))
    by (eexists; vm_compute; reflexivity).
  destruct (join_chat_joins_first (mk_env as_written) "s3" "carol" (JStr "f1")
              (gathered as_written) H1) as (Hin & _).
  split; [exact H1|exact Hin].
Defined.

Lemma signalling_is_only_passed_on_witness :
  "typing" ∈ [ "typing"; "accept-call"; "reject-call"; "call-signal"; "end-call" ] ∧
  same_but_out (gathered as_written)
    (dispatch (mk_env as_written) "s1" "alice" "typing" typing_start (gathered as_written)).2.
Proof.
  assert (H1 : "typing" ∈ [ "typing"; "accept-call"; "reject-call"; "call-signal";
                            "end-call" ]) by apply list_elem_of_here.
  split; [exact H1|].
  apply (signalling_is_only_passed_on (mk_env as_written) "s1" "alice" "typing" typing_start
           (gathered as_written) H1).
Defined.

(** ** Sending a message *)

Lemma send_message_notifies_the_others_witness :
  is_nullish (message_to "f1") = false ∧
  getChat (CS (mk_env as_written)) (jget "chatId" (message_to "f1"))
          (store (gathered as_written)) = (Ok (Some free_chat), []) ∧
  others "alice" (participants free_chat) = [bob] ∧
  out (on_send_message (mk_env as_written) "s1" "alice" (message_to "f1")
                       (gathered as_written)).2 =
    out (gathered as_written) ++
    emitted (ToRoom (chat_room (JStr "f1"))) "new-message"
            (message_input "alice" (message_to "f1")) (gathered as_written) ::
    map (notification "alice" (JStr "f1") (message_input "alice" (message_to "f1"))
                      (gathered as_written))
        (others "alice" (participants free_chat)).
Proof.
  assert (H1 : is_nullish (message_to "f1") = false) by reflexivity.
  assert (H2 : getChat (CS (mk_env as_written)) (jget "chatId" (message_to "f1"))
                       (store (gathered as_written)) = (Ok (Some free_chat), []))
    by (vm_compute; reflexivity).
  destruct (send_message_notifies_the_others (mk_env as_written) "s1" "alice"
              (message_to "f1") (gathered as_written) free_chat [] []
              (message_input "alice" (message_to "f1"))
              [message_input "alice" (message_to "f1")]
              [message_input "alice" (message_to "f1")]
              H1 H2 eq_refl eq_refl eq_refl eq_refl)
    as (_ & _ & _ & Hout).
  split_and!; [exact H1|exact H2|vm_compute; reflexivity|exact Hout].
Defined.

Lemma unsaved_message_reaches_nobody_witness :
  is_nullish (message_to "f1") = false ∧
  saveMessage (CS save_fails) (message_input "alice" (message_to "f1")) [] =
    (Throw (Error "disk full"), []) ∧
  out (on_send_message save_fails "s1" "alice" (message_to "f1") (gathered as_written)).2 =
    out (gathered as_written) ++
    [ emitted (ToSocket "s1") "error" (error_payload "disk full") (gathered as_written) ].
Proof.
  assert (H1 : is_nullish (message_to "f1") = false) by reflexivity.
  assert (H2 : getChat (CS save_fails) (jget "chatId" (message_to "f1"))
                       (store (gathered as_written)) = (Ok (Some free_chat), []))
    by (vm_compute; reflexivity).
  destruct (unsaved_message_reaches_nobody save_fails "s1" "alice" (message_to "f1")
              (gathered as_written) free_chat [] [] (Error "disk full") []
              H1 H2 eq_refl eq_refl)
    as (_ & _ & _ & Hout).
  split_and!; [exact H1|reflexivity|exact Hout].
Defined.

Lemma message_to_unknown_chat_witness :
  is_nullish (message_to "nowhere") = false ∧
  getChat (CS (mk_env as_written)) (jget "chatId" (message_to "nowhere"))
          (store (gathered as_written)) = (Ok None, []) ∧
  calls (on_send_message (mk_env as_written) "s1" "alice" (message_to "nowhere")
                         (gathered as_written)).2 =
    calls (gathered as_written) ++ [ C_getChat (JStr "nowhere") ].
Proof.
  assert (H1 : is_nullish (message_to "nowhere") = false) by reflexivity.
  assert (H2 : getChat (CS (mk_env as_written)) (jget "chatId" (message_to "nowhere"))
                       (store (gathered as_written)) = (Ok None, []))
    by (vm_compute; reflexivity).
  destruct (message_to_unknown_chat_is_not_saved (mk_env as_written) "s1" "alice"
              (message_to "nowhere") (gathered as_written) [] H1 H2)
    as (_ & _ & Hcalls & _).
  split_and!; [exact H1|exact H2|exact Hcalls].
Defined.

(** ** Asking for a paid chat *)

Lemma inactive_earner_is_not_asked_witness :
  is_nullish ask_erin = false ∧
  earnerProfile erin = Some erin_profile ∧
  isActive erin_profile = false ∧
  out (on_request_private_chat with_erin "s1" "alice" ask_erin (gathered completed)).2 =
    out (gathered completed) ++
    [ emitted (ToSocket "s1") "error" (error_payload "Earner is not available")
              (gathered completed) ].
Proof.
  assert (H1 : is_nullish ask_erin = false) by reflexivity.
  assert (H2 : getUser {| getUser := fun u =>
                            match u with
                            | JStr "erin" => ok (Some erin)
                            | _ => ok (user_of u)
                            end |}
                       (jget "earnerId" ask_erin) (store (gathered completed)) =
               (Ok (Some erin), []))
    by (vm_compute; reflexivity).
  destruct (inactive_earner_is_not_asked with_erin "s1" "alice" ask_erin (gathered completed)
              _ erin erin_profile [] H1 eq_refl H2 eq_refl eq_refl)
    as (_ & _ & _ & Hout).
  split_and!; [exact H1|reflexivity|reflexivity|exact Hout].
Defined.

Lemma request_private_chat_asks_both_sides_witness :
  is_nullish ask_bob = false ∧
  isActive bob_profile = true ∧
  chat_amount (mk_env completed) bob_profile (jget "duration" ask_bob) = JNum 300 ∧
  map e_name (drop (length (out (gathered completed)))
                (out (on_request_private_chat (mk_env completed) "s1" "alice" ask_bob
                                              (gathered completed)).2)) =
    [ "payment-request"; "chat-request" ].
Proof.
  assert (H1 : is_nullish ask_bob = false) by reflexivity.
  assert (H2 : getUser {| getUser := fun u => ok (user_of u) |}
                       (jget "earnerId" ask_bob) (store (gathered completed)) =
               (Ok (Some bob_user), []))
    by (vm_compute; reflexivity).
  destruct (request_private_chat_asks_both_sides (mk_env completed) "s1" "alice" ask_bob
              (gathered completed) _ bob_user bob_profile []
              (fun _ => ok (JObj [("_id", JStr "pay1")])) (JObj [("_id", JStr "pay1")]) []
              H1 eq_refl H2 eq_refl eq_refl eq_refl eq_refl eq_refl)
    as (_ & _ & _ & Hout).
  split_and!; [exact H1|reflexivity|vm_compute; reflexivity|].
  rewrite Hout, drop_app_length. reflexivity.
Defined.

Lemma handlers_fail_without_UserService_witness :
  UserService (mk_env as_written) = None ∧
  is_nullish call_dave = false ∧
  on_call_user (mk_env as_written) "s1" "alice" call_dave (gathered as_written) =
    (Throw (ReferenceError "UserService is not defined"), gathered as_written).
Proof.
  destruct (handlers_fail_without_UserService (mk_env as_written) "s1" "alice" call_dave
              (gathered as_written) eq_refl eq_refl) as (_ & Hcall & _).
  split_and!; [reflexivity|reflexivity|exact Hcall].
Defined.

(** ** Call rooms and presence *)


Lemma update_presence_witness :
  jget "status" away = JStr "away" ∧
  (js_truthy (jget "customStatus" away) = true ->
   ∃ custom, jget "customStatus" away = JStr custom) ∧
  hGet (user_room "alice") "status"
       (on_update_presence "s1" "alice" away (gathered as_written)).2 = Some "away" ∧
  hGet (user_room "alice") "customStatus"
       (on_update_presence "s1" "alice" away (gathered as_written)).2 = Some "brb".
Proof.
  assert (H2 : js_truthy (jget "customStatus" away) = true ->
               ∃ custom, jget "customStatus" away = JStr custom)
    by (intros _; exists "brb"; reflexivity).
  destruct (update_presence_stores_and_broadcasts "s1" "alice" away "away"
              (gathered as_written) eq_refl H2) as (_ & Hstatus & Hcustom & _).
  split_and!; [reflexivity|exact H2|exact Hstatus|exact Hcustom].
Defined.

(** ** Withdrawals *)

Lemma withdrawal_below_minimum_witness :
  400 < minWithdrawal (JStr "bank") ∧
  processWithdrawal "ann" 400 (JStr "bank") JNull L0 =
  (Throw (Error ("Withdrawal processing failed: " +:+
                 ("Minimum withdrawal amount is " +:+ pretty (minWithdrawal (JStr "bank"))))),
   L0).
Proof.
  assert (H1 : 400 < minWithdrawal (JStr "bank")) by (vm_compute; reflexivity).
  destruct (withdrawal_below_minimum_is_refused "ann" 400 (JStr "bank") JNull L0 H1)
    as (Hrefused & _).
  split; [exact H1|exact Hrefused].
Defined.

Lemma withdrawal_without_funds_witness :
  minWithdrawal (JStr "upi") ≤ 5000 ∧
  match users L0 !! "ann" with
  | Some wallet => balance wallet < 5000
  | None => True
  end ∧
  (processWithdrawal "ann" 5000 (JStr "upi") JNull L0).2 = L0.
Proof.
  assert (H1 : minWithdrawal (JStr "upi") ≤ 5000) by (vm_compute; discriminate).
  assert (H2 : match users L0 !! "ann" with
               | Some wallet => balance wallet < 5000
               | None => True
               end) by (vm_compute; reflexivity).
  pose proof (withdrawal_without_funds_is_refused "ann" 5000 (JStr "upi") JNull L0 H1 H2)
    as Hrefused.
  split_and!; [exact H1|exact H2|by rewrite Hrefused].
Defined.




(** ** Top-ups and gateways *)

Lemma top_up_by_unknown_method_witness :
  JStr "cash" ≠ JStr "razorpay" ∧ JStr "cash" ≠ JStr "paypal" ∧
  createWalletTopUp gw0 "ann" 50 JUndef (JStr "cash") L0 =
  (Throw (Error "Wallet top-up failed: Unsupported payment method"), L0).
Proof.
  assert (H1 : JStr "cash" ≠ JStr "razorpay") by discriminate.
  assert (H2 : JStr "cash" ≠ JStr "paypal") by discriminate.
  split_and!; [exact H1|exact H2|].
  apply (top_up_by_unknown_method_does_nothing gw0 "ann" 50 JUndef (JStr "cash") L0 H1 H2).
Defined.

Lemma failed_top_up_witness :
  (createWalletTopUp gw0 "ann" 0 JUndef (JStr "razorpay") L0).1 =
    Throw (Error ("Wallet top-up failed: " +:+
                  ("Razorpay order creation failed: " +:+ "amount must be positive"))) ∧
  intents (createWalletTopUp gw0 "ann" 0 JUndef (JStr "razorpay") L0).2 = intents L0.
Proof.
  assert (H1 : (createWalletTopUp gw0 "ann" 0 JUndef (JStr "razorpay") L0).1 =
               Throw (Error ("Wallet top-up failed: " +:+
                             ("Razorpay order creation failed: " +:+
                              "amount must be positive"))))
    by (vm_compute; reflexivity).
  destruct (failed_top_up_stores_no_intent gw0 "ann" 0 JUndef (JStr "razorpay") L0 _ H1)
    as (_ & Hintents & _).
  split; [exact H1|exact Hintents].
Defined.

Lemma razorpay_top_up_witness :
  orders_create gw0 (razorpay_options (top_up_order 50)) =
    Ok (JObj [("id", JStr "order_1"); ("amount", JNum 5000); ("currency", JStr "INR")]) ∧
  gateway (createWalletTopUp gw0 "ann" 50 JUndef (JStr "razorpay") L0).2 =
    gateway L0 ++ [ G_orders_create (razorpay_options (top_up_order 50)) ] ∧
  jget "amount" (razorpay_options (top_up_order 50)) = JNum (50 * 100).
Proof.
  assert (H1 : orders_create gw0 (razorpay_options (top_up_order 50)) =
               Ok (JObj [("id", JStr "order_1"); ("amount", JNum 5000);
                         ("currency", JStr "INR")]))
    by (vm_compute; reflexivity).
  destruct (razorpay_top_up_stores_a_pending_intent gw0 "ann" 50 JUndef L0 _ H1 eq_refl)
    as (_ & Hgw & Hamount & _).
  split_and!; [exact H1|exact Hgw|exact Hamount].
Defined.

Lemma paypal_order_without_approve_link_witness :
  (∃ order, execute_create gw0 (paypal_request gw0 (top_up_order 50)) = Ok order ∧
            Forall (fun link => is_nullish link = false ∧
                                is_string (jget "rel" link) "approve" = false)
                   (ppo_links order)) ∧
  (createPayPalOrder gw0 (top_up_order 50) L0).1 =
    Throw (Error ("PayPal order creation failed: " +:+
                  "Cannot read properties of undefined (reading 'href')")).
Proof.
  assert (H2 : Forall (fun link => is_nullish link = false ∧
                                   is_string (jget "rel" link) "approve" = false)
                 [ JObj [("rel", JStr "self");
                         ("href", JStr "https://paypal.example/PP-1")] ])
    by (repeat constructor).
  pose proof (paypal_order_without_approve_link_fails gw0 (top_up_order 50) L0 _
                eq_refl H2) as Hfail.
  split; [eexists; split; [reflexivity|exact H2]|by rewrite Hfail].
Defined.

Lemma paypal_capture_witness :
  (∃ capture, execute_capture gw0 (JStr "PP-1") = Ok capture ∧
              cap_status capture ≠ JStr "COMPLETED") ∧
  (capturePayPalOrder gw0 (JStr "PP-1") L0).1 =
    Ok (JObj [("success", JBool false); ("message", JStr "Payment not completed")]).
Proof.
  assert (H2 : JStr "PENDING" ≠ JStr "COMPLETED") by discriminate.
  destruct (paypal_capture_outcomes gw0 (JStr "PP-1") L0 _ eq_refl) as (_ & Hnot & _).
  split; [eexists; split; [reflexivity|exact H2]|exact (Hnot H2)].
Defined.

Lemma razorpay_signature_witness :
  hmac_sha256_hex gw0 (RAZORPAY_KEY_SECRET gw0)
                  (js_to_string (JStr "order_1") +:+ "|" +:+ js_to_string (JStr "pay_1")) =
    Ok "hmac(order_1|pay_1)" ∧
  ∃ verified : bool,
    verifyRazorpayPayment gw0 (JStr "pay_1") (JStr "order_1") (JStr "hmac(pay_1|order_1)") L0 =
    (Ok (JObj [("success", JBool verified); ("verified", JBool verified)]), L0) ∧
    (verified = true ↔ JStr "hmac(pay_1|order_1)" = JStr "hmac(order_1|pay_1)").
Proof.
  assert (H1 : hmac_sha256_hex gw0 (RAZORPAY_KEY_SECRET gw0)
                 (js_to_string (JStr "order_1") +:+ "|" +:+ js_to_string (JStr "pay_1")) =
               Ok "hmac(order_1|pay_1)") by reflexivity.
  split; [exact H1|].
  apply (razorpay_signature_is_checked gw0 (JStr "pay_1") (JStr "order_1")
           (JStr "hmac(pay_1|order_1)") L0 _ H1).
Defined.

(** ** The chat page *)


(** Outside its domain: a negative number of seconds is shown with two
    signs, and a negative remainder is not padded. *)
Example formatTime_of_a_negative_time : formatTime (-5) = "-1:-5".
Proof. vm_compute. reflexivity. Qed.

(** Three users start typing, one of them twice, and one stops. *)
Example typing_users_after_five_events :
  typingUsers [ ("bob", JBool true); ("carol", JBool true); ("bob", JBool true);
                ("dave", JBool true); ("carol", JBool false) ] = [ "bob"; "dave" ].
Proof. vm_compute. reflexivity. Qed.

End Checks.
